(** * miseqinteropreader: binary InterOp record decoding, records and summaries

    Shallow embedding of
    - [read_records.py]: [BinaryFormat], [read_records] and the per-format
      readers [read_errors], [read_tiles], [read_quality],
      [read_corrected_intensities], [read_extractions];
    - [models.py]: record construction with pydantic validation, the
      [__eq__] of [BaseMetricRecord], [model_dump] (including the custom
      serializer of [QualityRecord] and the computed [datetime] of
      [ExtractionRecord]) and the summary models;
    - [interoptestgenerator/gen_data.py]: the test-data encoder.

    Python generators are modelled as explicit generator states with a
    [next] function threading the state of the shared file object. *)

From Stdlib Require Import ZArith List String Ascii Bool Lia QArith Permutation.
Import ListNotations.
Open Scope string_scope.
Open Scope list_scope.
Open Scope Z_scope.
Set Warnings "-register-all".

(** ** Bytes *)

Definition bytes := list Byte.byte.

Definition byte_val (b : Byte.byte) : Z := Z.of_N (Byte.to_N b).

(** [bytes([z % 256])]: the byte of an integer, taken modulo 256. *)
Definition byte_of_Z (z : Z) : Byte.byte :=
  match Byte.of_N (Z.to_N (z mod 256)) with
  | Some b => b
  | None => Byte.x00
  end.

(** ** Python values and exceptions *)

(** The values the decoder and the models handle.  A float field holds a
    value read from (or written to) a 32-bit IEEE float; it is kept as the
    float's 32-bit pattern.  [PDatetime] is a [datetime] given as a count
    of microseconds since [0001-01-01T00:00:00]. *)
Inductive pyval :=
| PInt (z : Z)
| PFloat (bits : Z)
| PList (l : list pyval)
| PDatetime (us : Z).

Inductive io_msg :=
| FileVersionTooLow (version min_version : Z)  (* "File version {} is less than minimum version {}" *)
| PartialRecord (read_length : Z).             (* "Partial record of length {} found" *)

Inductive exn :=
| IOError (m : io_msg)
| StructError                  (* struct.error *)
| ValidationError (field : string)  (* pydantic.ValidationError *)
| KeyError (key : string)
| OverflowError.

Inductive result (A : Type) :=
| Ok (a : A)
| Err (e : exn).
Arguments Ok {A} a.
Arguments Err {A} e.

Definition bind {A B} (r : result A) (k : A -> result B) : result B :=
  match r with Ok a => k a | Err e => Err e end.

Notation "x <- r ;; k" := (bind r (fun x => k))
  (at level 61, r at next level, right associativity).

(** ** Open binary files

    A [BufferedReader] over a regular file: its contents and the current
    position.  [read n] returns up to [n] bytes, fewer only at end of file. *)

Record file := mkFile { contents : bytes; pos : nat }.

Definition read (n : nat) (f : file) : bytes * file :=
  let data := firstn n (skipn (pos f) (contents f)) in
  (data, mkFile (contents f) (pos f + List.length data)).

(** ** The [struct] module *)

Inductive byte_order := LittleEndian | BigEndian.

Inductive fieldty := FB | FH | FI | FL | FQ | Ff.

(** Standard size of each format character. *)
Definition field_size (t : fieldty) : nat :=
  match t with
  | FB => 1 | FH => 2 | FI => 4 | FL => 4 | FQ => 8 | Ff => 4
  end.

Fixpoint parse_codes (s : string) : option (list fieldty) :=
  match s with
  | EmptyString => Some []
  | String c s' =>
      match parse_codes s' with
      | None => None
      | Some l =>
          if Ascii.eqb c "B"%char then Some (FB :: l)
          else if Ascii.eqb c "H"%char then Some (FH :: l)
          else if Ascii.eqb c "I"%char then Some (FI :: l)
          else if Ascii.eqb c "L"%char then Some (FL :: l)
          else if Ascii.eqb c "Q"%char then Some (FQ :: l)
          else if Ascii.eqb c "f"%char then Some (Ff :: l)
          else None
      end
  end.

(** A format string: a byte-order character followed by format codes. *)
Definition parse_format (fmt : string) : option (byte_order * list fieldty) :=
  match fmt with
  | String c s =>
      if Ascii.eqb c "<"%char then option_map (pair LittleEndian) (parse_codes s)
      else if Ascii.eqb c "!"%char then option_map (pair BigEndian) (parse_codes s)
      else None
  | EmptyString => None
  end.

Definition calcsize_codes (l : list fieldty) : nat :=
  fold_right (fun t acc => (field_size t + acc)%nat) 0%nat l.

Definition calcsize (fmt : string) : option nat :=
  option_map (fun p => calcsize_codes (snd p)) (parse_format fmt).

Fixpoint le_value (l : bytes) : Z :=
  match l with
  | [] => 0
  | b :: l' => byte_val b + 256 * le_value l'
  end.

Definition be_value (l : bytes) : Z :=
  fold_left (fun acc b => acc * 256 + byte_val b) l 0.

Definition order_value (o : byte_order) (l : bytes) : Z :=
  match o with LittleEndian => le_value l | BigEndian => be_value l end.

Fixpoint unpack_codes (o : byte_order) (codes : list fieldty) (buf : bytes)
  : list pyval :=
  match codes with
  | [] => []
  | t :: codes' =>
      let w := field_size t in
      let v := order_value o (firstn w buf) in
      (match t with Ff => PFloat v | _ => PInt v end)
        :: unpack_codes o codes' (skipn w buf)
  end.

(** [struct.unpack(fmt, buf)]: the buffer must have exactly [calcsize(fmt)]
    bytes. *)
Definition unpack (fmt : string) (buf : bytes) : result (list pyval) :=
  match parse_format fmt with
  | None => Err StructError
  | Some (o, codes) =>
      if Nat.eqb (List.length buf) (calcsize_codes codes)
      then Ok (unpack_codes o codes buf)
      else Err StructError
  end.

Fixpoint le_bytes (w : nat) (v : Z) : bytes :=
  match w with
  | O => []
  | S w' => byte_of_Z v :: le_bytes w' (v / 256)
  end.

Definition order_bytes (o : byte_order) (w : nat) (v : Z) : bytes :=
  match o with
  | LittleEndian => le_bytes w v
  | BigEndian => rev (le_bytes w v)
  end.

Fixpoint pack_codes (o : byte_order) (codes : list fieldty) (vs : list pyval)
  : result bytes :=
  match codes, vs with
  | [], [] => Ok []
  | t :: codes', v :: vs' =>
      let w := field_size t in
      let z := match t, v with
               | Ff, PFloat x => Some x
               | Ff, _ => None
               | _, PInt x => Some x
               | _, _ => None
               end in
      match z with
      | Some x =>
          if (0 <=? x) && (x <? 2 ^ (8 * Z.of_nat w))
          then rest <- pack_codes o codes' vs' ;; Ok (order_bytes o w x ++ rest)
          else Err StructError
      | None => Err StructError
      end
  | _, _ => Err StructError
  end.

(** [struct.pack(fmt, *vs)]; an integer out of the range of its code is a
    [struct.error]. *)
Definition pack (fmt : string) (vs : list pyval) : result bytes :=
  match parse_format fmt with
  | None => Err StructError
  | Some (o, codes) => pack_codes o codes vs
  end.

(** ** The Format Registry: [BinaryFormat] *)

Record BinaryFormat := mkFormat {
  format : string;
  length : Z;
  min_version : Z
}.

Fixpoint str_repeat (s : string) (n : nat) : string :=
  match n with O => EmptyString | S n' => String.append s (str_repeat s n') end.

(** [HEADER = ("!BB", None, None)]: only its format string is used. *)
Definition HEADER_format : string := "!BB".

Definition ERROR := mkFormat "<HHHfLLLLL" 30 3.
Definition TILE := mkFormat "<HHHf" 10 2.
Definition QUALITY := mkFormat (String.append "<HHH" (str_repeat "L" 50)) 206 4.
Definition CORRECTEDINTENSITY :=
  mkFormat (String.append "<HHH"
    (String.append (str_repeat "H" 9) (String.append (str_repeat "I" 5) "f"))) 48 2.
Definition EXTRACTION := mkFormat "<HHHffffHHHHQ" 38 2.
Definition IMAGE := mkFormat "<HHHHHH" 12 1.
Definition PHASING := mkFormat "<HHHff" 14 1.

(** ** [read_records] as a generator

    [RRStart] is the generator before its first [next] (nothing has run);
    [RRLoop record_length] is suspended at the [yield] inside the loop;
    [RRDone] is a finished generator (returned or raised). *)

Inductive step (A : Type) :=
| Yield (a : A)
| Stop                      (* StopIteration *)
| Raise (e : exn).
Arguments Yield {A} a.
Arguments Stop {A}.
Arguments Raise {A} e.

Inductive rr_gen :=
| RRStart (min_version : Z)
| RRLoop (record_length : Z)
| RRDone.

(** One turn of [while True: data = data_file.read(record_length) ...]. *)
Definition rr_loop (record_length : Z) (f : file) : step bytes * rr_gen * file :=
  let (data, f') := read (Z.to_nat record_length) f in
  let read_length := Z.of_nat (List.length data) in
  if read_length =? 0 then (Stop, RRDone, f')
  else if read_length <? record_length
  then (Raise (IOError (PartialRecord read_length)), RRDone, f')
  else (Yield data, RRLoop record_length, f').

Definition next_rr (g : rr_gen) (f : file) : step bytes * rr_gen * file :=
  match g with
  | RRStart min_version =>
      let (header, f1) := read 2 f in
      match unpack HEADER_format header with
      | Ok [PInt version; PInt record_length] =>
          if version <? min_version
          then (Raise (IOError (FileVersionTooLow version min_version)), RRDone, f1)
          else rr_loop record_length f1
      | Ok _ => (Raise StructError, RRDone, f1)
      | Err e => (Raise e, RRDone, f1)
      end
  | RRLoop record_length => rr_loop record_length f
  | RRDone => (Stop, RRDone, f)
  end.

(** Calling [read_records(data_file, min_version)] only builds the
    generator: the file is left untouched. *)
Definition read_records (f : file) (min_version : Z) : rr_gen * file :=
  (RRStart min_version, f).

(** ** Record models

    Every record class of [models.py] is a pydantic model; a record is its
    class together with the values of its fields in declaration order. *)

Inductive Kind :=
| CorrectedIntensityRecord
| ExtractionRecord
| ImageRecord
| PhasingRecord
| ErrorRecord
| QualityRecord
| TileMetricRecord.

Definition Kind_eqb (a b : Kind) : bool :=
  match a, b with
  | CorrectedIntensityRecord, CorrectedIntensityRecord
  | ExtractionRecord, ExtractionRecord
  | ImageRecord, ImageRecord
  | PhasingRecord, PhasingRecord
  | ErrorRecord, ErrorRecord
  | QualityRecord, QualityRecord
  | TileMetricRecord, TileMetricRecord => true
  | _, _ => false
  end.

(** Field annotations: [uint] ([int] with [assert_unsigned]), [float], and
    the [quality_bins] annotation ([list[int]] with
    [check_quality_record_length]). *)
Inductive annot := Uint | Float | QualityBins.

Definition uint_fields (names : list string) : list (string * annot) :=
  map (fun n => (n, Uint)) names.

(** [model_fields]: the fields of each class, inherited ones first. *)
Definition model_fields (k : Kind) : list (string * annot) :=
  let base := uint_fields ["lane"; "tile"] in
  let cycle_base := base ++ uint_fields ["cycle"] in
  match k with
  | CorrectedIntensityRecord =>
      cycle_base ++ uint_fields
        ["avg_cycle_intensity"; "avg_corrected_intensity_a";
         "avg_corrected_intensity_c"; "avg_corrected_intensity_g";
         "avg_corrected_intensity_t"; "avg_corrected_cluster_intensity_a";
         "avg_corrected_cluster_intensity_c"; "avg_corrected_cluster_intensity_g";
         "avg_corrected_cluster_intensity_t"; "num_base_calls_none";
         "num_base_calls_a"; "num_base_calls_c"; "num_base_calls_g";
         "num_base_calls_t"] ++ [("snr", Float)]
  | ExtractionRecord =>
      cycle_base ++ [("focus_a", Float); ("focus_c", Float);
                     ("focus_g", Float); ("focus_t", Float)]
        ++ uint_fields ["max_intensity_a"; "max_intensity_c";
                        "max_intensity_g"; "max_intensity_t"; "datestamp"]
  | ImageRecord =>
      cycle_base ++ uint_fields ["channel_number"; "min_contrast"; "max_contrast"]
  | PhasingRecord =>
      cycle_base ++ [("phasing_weight", Float); ("prephasing_weight", Float)]
  | ErrorRecord =>
      cycle_base ++ [("error_rate", Float)]
        ++ uint_fields ["num_0_errors"; "num_1_errors"; "num_2_errors";
                        "num_3_errors"; "num_4_errors"]
  | QualityRecord => cycle_base ++ [("quality_bins", QualityBins)]
  | TileMetricRecord => base ++ [("metric_code", Uint); ("metric_value", Float)]
  end.

Record record := mkRecord { rkind : Kind; rvalues : list pyval }.

(** [assert_unsigned] and [check_quality_record_length] as pydantic
    validators of one field.  Arguments are taken of the annotated Python
    type (an [int], a [float], a list of [int]s); a value of another type
    is rejected. *)
Definition validate_field (name : string) (a : annot) (v : pyval) : result pyval :=
  match a, v with
  | Uint, PInt z => if 0 <=? z then Ok v else Err (ValidationError name)
  | Float, PFloat _ => Ok v
  | QualityBins, PList l =>
      if forallb (fun x => match x with PInt _ => true | _ => false end) l
      then if Nat.eqb (List.length l) 50 then Ok v else Err (ValidationError name)
      else Err (ValidationError name)
  | _, _ => Err (ValidationError name)
  end.

Fixpoint validate_fields (fs : list (string * annot)) (vs : list pyval)
  : result (list pyval) :=
  match fs, vs with
  | [], [] => Ok []
  | (n, a) :: fs', v :: vs' =>
      v' <- validate_field n a v ;;
      rest <- validate_fields fs' vs' ;;
      Ok (v' :: rest)
  | (n, _) :: _, [] => Err (ValidationError n)      (* missing field *)
  | [], _ :: _ => Err (ValidationError "extra")
  end.

(** [Kind(field=value, ...)]: the keyword arguments given in field order. *)
Definition construct (k : Kind) (vs : list pyval) : result record :=
  vals <- validate_fields (model_fields k) vs ;;
  Ok (mkRecord k vals).

(** ** The derived [datetime] of [ExtractionRecord]

    Python floats met here are non-negative doubles [dm * 2 ^ de] with
    [dm < 2 ^ 53] (or [dm = 2 ^ 53] after rounding up). *)

Record double := mkDouble { dm : Z; de : Z }.

(** [num / den] rounded to an integer, ties to even ([den > 0]). *)
Definition round_half_even (num den : Z) : Z :=
  let q := num / den in
  let r := num mod den in
  match Z.compare (2 * r) den with
  | Lt => q
  | Gt => q + 1
  | Eq => if Z.even q then q else q + 1
  end.

Definition scaled_num (a e : Z) : Z := if 0 <=? e then a else a * 2 ^ (- e).
Definition scaled_den (b e : Z) : Z := if 0 <=? e then b * 2 ^ e else b.

(** Python's [int / int] for [a >= 0], [b > 0]: the correctly rounded
    double (53-bit significand, ties to even). *)
Definition int_truediv (a b : Z) : double :=
  if a =? 0 then mkDouble 0 0 else
  let e0 := Z.log2 a - Z.log2 b - 52 in
  let e := if scaled_num a e0 / scaled_den b e0 <? 2 ^ 52 then e0 - 1 else e0 in
  mkDouble (round_half_even (scaled_num a e) (scaled_den b e)) e.

(** [timedelta(microseconds=x)]: the float is rounded to a whole number of
    microseconds, ties to even; [|days| <= 999999999]. *)
Definition timedelta_microseconds (x : double) : result Z :=
  let us := if 0 <=? de x then dm x * 2 ^ de x
            else round_half_even (dm x) (2 ^ (- de x)) in
  if us <=? 999999999 * 86400000000 + 86399999999 then Ok us else Err OverflowError.

(** [datetime(1, 1, 1) + td], as microseconds since [0001-01-01]; the
    latest datetime is [9999-12-31T23:59:59.999999]. *)
Definition datetime_max_us : Z := 3652059 * 86400000000 - 1.

Definition datetime_add (base us : Z) : result Z :=
  if base + us <=? datetime_max_us then Ok (base + us) else Err OverflowError.

(** [sum([2**i for i in range(62)])] *)
Definition bitmask : Z :=
  fold_right Z.add 0 (map (fun i => 2 ^ Z.of_nat i) (seq 0 62)).

Definition extraction_datetime (datestamp : Z) : result Z :=
  let ns100intervals := Z.land datestamp bitmask in
  us <- timedelta_microseconds (int_truediv ns100intervals 10) ;;
  datetime_add 0 us.

(** ** [model_dump] and [BaseMetricRecord.__eq__] *)

Definition digit (n : nat) : string := String (ascii_of_nat (48 + n)) EmptyString.

(** [f"q{k:02}"] for [1 <= k <= 99]. *)
Definition qkey (k : nat) : string :=
  String.append "q" (String.append (digit (k / 10)) (digit (k mod 10))).

Fixpoint enumerate_from (start : nat) (l : list pyval) : list (string * pyval) :=
  match l with
  | [] => []
  | v :: l' => (qkey start, v) :: enumerate_from (S start) l'
  end.

Fixpoint lookup (d : list (string * pyval)) (k : string) : result pyval :=
  match d with
  | [] => Err (KeyError k)
  | (k', v) :: d' => if String.eqb k k' then Ok v else lookup d' k
  end.

(** [model_dump()]: the fields by name, plus the computed [datetime] of an
    [ExtractionRecord] (which can raise); [QualityRecord] has its own
    [custom_serializer] with flat [q01 .. q50] keys. *)
Definition model_dump (r : record) : result (list (string * pyval)) :=
  let d := combine (map fst (model_fields (rkind r))) (rvalues r) in
  match rkind r with
  | QualityRecord =>
      match rvalues r with
      | [lane; tile; cycle; PList bins] =>
          Ok ([("lane", lane); ("tile", tile); ("cycle", cycle)]
                ++ enumerate_from 1 bins)
      | _ => Ok d
      end
  | ExtractionRecord =>
      ds <- lookup d "datestamp" ;;
      match ds with
      | PInt z => dt <- extraction_datetime z ;; Ok (d ++ [("datetime", PDatetime dt)])
      | _ => Ok d
      end
  | _ => Ok d
  end.

Fixpoint pyval_eqb (a b : pyval) : bool :=
  match a, b with
  | PInt x, PInt y => Z.eqb x y
  | PFloat x, PFloat y => Z.eqb x y
  | PDatetime x, PDatetime y => Z.eqb x y
  | PList xs, PList ys =>
      (fix go (xs ys : list pyval) : bool :=
         match xs, ys with
         | [], [] => true
         | x :: xs', y :: ys' => pyval_eqb x y && go xs' ys'
         | _, _ => false
         end) xs ys
  | _, _ => false
  end.

Section Equality.

(** [math.isclose(a, b, rel_tol=1e-7)] on two float values, given by their
    32-bit patterns; the claims settled here do not depend on it. *)
Variable isclose : Z -> Z -> bool.

Definition compare_field (self_dict other_dict : list (string * pyval))
  (fa : string * annot) : result bool :=
  let (k, a) := fa in
  match a with
  | Float =>
      x <- lookup self_dict k ;;
      y <- lookup other_dict k ;;
      match x, y with
      | PFloat x', PFloat y' => Ok (isclose x' y')
      | _, _ => Ok (pyval_eqb x y)
      end
  | _ =>
      x <- lookup self_dict k ;;
      y <- lookup other_dict k ;;
      Ok (pyval_eqb x y)
  end.

Fixpoint comparison_array (self_dict other_dict : list (string * pyval))
  (fs : list (string * annot)) : result (list bool) :=
  match fs with
  | [] => Ok []
  | fa :: fs' =>
      c <- compare_field self_dict other_dict fa ;;
      rest <- comparison_array self_dict other_dict fs' ;;
      Ok (c :: rest)
  end.

(** [self == other] *)
Definition record_eq (self other : record) : result bool :=
  if Kind_eqb (rkind other) (rkind self) then
    other_dict <- model_dump other ;;
    self_dict <- model_dump self ;;
    arr <- comparison_array self_dict other_dict (model_fields (rkind self)) ;;
    Ok (forallb (fun b => b) arr)
  else Ok false.

End Equality.

(** ** The per-format readers

    [for data in read_records(...): fields = unpack(fmt, data[:length]);
     yield Record(...)]: a reader is a format and the way the unpacked
    fields become the record's keyword arguments. *)

Record reader := mkReader { rformat : BinaryFormat; rkind_of : Kind; rargs : list pyval -> list pyval }.

Definition read_errors_reader := mkReader ERROR ErrorRecord (fun fields => fields).
Definition read_tiles_reader := mkReader TILE TileMetricRecord (fun fields => fields).
Definition read_quality_reader :=
  mkReader QUALITY QualityRecord
    (fun fields => firstn 3 fields ++ [PList (skipn 3 fields)]).
Definition read_corrected_intensities_reader :=
  mkReader CORRECTEDINTENSITY CorrectedIntensityRecord (fun fields => fields).
Definition read_extractions_reader :=
  mkReader EXTRACTION ExtractionRecord (fun fields => fields).

Definition readers : list reader :=
  [read_errors_reader; read_tiles_reader; read_quality_reader;
   read_corrected_intensities_reader; read_extractions_reader].

(** The body of the loop for one raw record. *)
Definition decode_record (rd : reader) (data : bytes) : result record :=
  fields <- unpack (format (rformat rd)) (firstn (Z.to_nat (length (rformat rd))) data) ;;
  construct (rkind_of rd) (rargs rd fields).

Inductive fmt_gen :=
| FStart                    (* not started: [read_records] not yet called *)
| FIter (inner : rr_gen)    (* suspended at [yield], inside the [for] loop *)
| FDone.

Definition fmt_iter (rd : reader) (inner : rr_gen) (f : file)
  : step record * fmt_gen * file :=
  match next_rr inner f with
  | (Yield data, inner', f') =>
      match decode_record rd data with
      | Ok r => (Yield r, FIter inner', f')
      | Err e => (Raise e, FDone, f')
      end
  | (Stop, _, f') => (Stop, FDone, f')
  | (Raise e, _, f') => (Raise e, FDone, f')
  end.

Definition next_fmt (rd : reader) (g : fmt_gen) (f : file) : step record * fmt_gen * file :=
  match g with
  | FStart => fmt_iter rd (RRStart (min_version (rformat rd))) f
  | FIter inner => fmt_iter rd inner f
  | FDone => (Stop, FDone, f)
  end.

(** Calling [read_errors(data_file)] (or any reader) builds the generator
    and returns it; no code of its body runs. *)
Definition call_reader (rd : reader) (f : file) : fmt_gen * file := (FStart, f).

(** [list(gen)]: [next] until the generator stops or raises. *)
Inductive outcome := Finished | Raised (e : exn) | OutOfFuel.

Fixpoint run {G A : Type} (next : G -> file -> step A * G * file)
  (fuel : nat) (g : G) (f : file) : list A * outcome :=
  match fuel with
  | O => ([], OutOfFuel)
  | S fuel' =>
      match next g f with
      | (Yield a, g', f') => let (l, o) := run next fuel' g' f' in (a :: l, o)
      | (Stop, _, _) => ([], Finished)
      | (Raise e, _, _) => ([], Raised e)
      end
  end.

(** ** The test-data generator ([gen_data.py]) *)

(** [gen_header()] of a format's generator: [pack("!BB", min_version, length)]. *)
Definition gen_header (fmt : BinaryFormat) : result bytes :=
  pack HEADER_format [PInt (min_version fmt); PInt (length fmt)].

Fixpoint generate_binary (fmt : BinaryFormat) (rows : list (list pyval))
  : result (list bytes) :=
  match rows with
  | [] => Ok []
  | row :: rows' =>
      b <- pack (format fmt) row ;;
      rest <- generate_binary fmt rows' ;;
      Ok (b :: rest)
  end.

(** [write_file(file, None, binary_data)], then opened for reading. *)
Definition encode (fmt : BinaryFormat) (rows : list (list pyval)) : result file :=
  header <- gen_header fmt ;;
  body <- generate_binary fmt rows ;;
  Ok (mkFile (header ++ List.concat body) 0).

(** ** Summary models

    Python floats are left abstract: a type of floats with [0.0], the
    conversion [float(n)] of an int, true division and the test [x == 0]. *)

Section Summaries.

Variable pyfloat : Type.
Variable fzero : pyfloat.                       (* 0.0 *)
Variable float_of_int : Z -> pyfloat.           (* float(n) *)
Variable fdiv : pyfloat -> pyfloat -> pyfloat.  (* x / y *)
Variable float_eq_zero : pyfloat -> bool.       (* x == 0 *)

Record TileMetricSummary := mkTileMetricSummary {
  density_count : Z;
  density_sum : pyfloat;
  total_clusters : pyfloat;
  passing_clusters : pyfloat
}.

Definition pass_rate (s : TileMetricSummary) : pyfloat :=
  if float_eq_zero (total_clusters s) then fzero
  else fdiv (passing_clusters s) (total_clusters s).

(** [density_sum / density_count]: a float divided by an int. *)
Definition cluster_density (s : TileMetricSummary) : pyfloat :=
  if density_count s =? 0 then fzero
  else fdiv (density_sum s) (float_of_int (density_count s)).

Record QualityMetricsSummary := mkQualityMetricsSummary {
  total_count : Z;
  total_reverse : Z;
  good_count : Z;
  good_reverse : Z
}.

(** [good_count / float(total_count)]: the int is converted to float. *)
Definition q30_forward (s : QualityMetricsSummary) : pyfloat :=
  if total_count s =? 0 then fzero
  else fdiv (float_of_int (good_count s)) (float_of_int (total_count s)).

Definition q30_reverse (s : QualityMetricsSummary) : pyfloat :=
  if total_reverse s =? 0 then fzero
  else fdiv (float_of_int (good_reverse s)) (float_of_int (total_reverse s)).

Record ErrorMetricsSummary := mkErrorMetricsSummary {
  error_sum_forward : pyfloat;
  error_count_forward : Z;
  error_sum_reverse : pyfloat;
  error_count_reverse : Z
}.

Definition error_rate_forward (s : ErrorMetricsSummary) : pyfloat :=
  if error_count_forward s =? 0 then fzero
  else fdiv (error_sum_forward s) (float_of_int (error_count_forward s)).

Definition error_rate_reverse (s : ErrorMetricsSummary) : pyfloat :=
  if error_count_reverse s =? 0 then fzero
  else fdiv (error_sum_reverse s) (float_of_int (error_count_reverse s)).

End Summaries.

Arguments mkTileMetricSummary {pyfloat} density_count density_sum total_clusters passing_clusters.
Arguments density_count {pyfloat} _.
Arguments density_sum {pyfloat} _.
Arguments total_clusters {pyfloat} _.
Arguments passing_clusters {pyfloat} _.
Arguments mkErrorMetricsSummary {pyfloat} error_sum_forward error_count_forward error_sum_reverse error_count_reverse.
Arguments error_sum_forward {pyfloat} _.
Arguments error_count_forward {pyfloat} _.
Arguments error_sum_reverse {pyfloat} _.
Arguments error_count_reverse {pyfloat} _.
Arguments pass_rate {pyfloat} fzero fdiv float_eq_zero s.
Arguments cluster_density {pyfloat} fzero float_of_int fdiv s.
Arguments q30_forward {pyfloat} fzero float_of_int fdiv s.
Arguments q30_reverse {pyfloat} fzero float_of_int fdiv s.
Arguments error_rate_forward {pyfloat} fzero float_of_int fdiv s.
Arguments error_rate_reverse {pyfloat} fzero float_of_int fdiv s.

Definition registry : list BinaryFormat :=
  [ERROR; TILE; QUALITY; CORRECTEDINTENSITY; EXTRACTION; IMAGE; PHASING].

(** Whether the annotations of a list of fields are those of the values
    unpacked by a list of format codes ([float] for [f], [uint] otherwise). *)
Definition annot_eqb (a b : annot) : bool :=
  match a, b with
  | Uint, Uint | Float, Float | QualityBins, QualityBins => true
  | _, _ => false
  end.

Fixpoint codes_match (codes : list fieldty) (fs : list (string * annot)) : bool :=
  match codes, fs with
  | [], [] => true
  | t :: codes', (_, a) :: fs' =>
      annot_eqb a (match t with Ff => Float | _ => Uint end) && codes_match codes' fs'
  | _, _ => false
  end.

(** ** Python dicts used as summaries

    A [dict] with string keys, in insertion order: [d[k] = v] replaces the
    value of a key already present, in place, and appends a new key. *)

Fixpoint dict_set {V : Type} (k : string) (v : V) (d : list (string * V))
  : list (string * V) :=
  match d with
  | [] => [(k, v)]
  | (k', v') :: d' => if String.eqb k k' then (k, v) :: d' else (k', v') :: dict_set k v d'
  end.

(** [d.get(k)] *)
Fixpoint dict_get {V : Type} (d : list (string * V)) (k : string) : option V :=
  match d with
  | [] => None
  | (k', v) :: d' => if String.eqb k k' then Some v else dict_get d' k
  end.

(** ** The legacy package [interop_reader]: [tile_metrics_parser.py] *)

Module LegacyTiles.

Section Parser.

Variable pyfloat : Type.
Variable fzero : pyfloat.                        (* 0.0 *)
Variable fadd : pyfloat -> pyfloat -> pyfloat.   (* x + y *)
Variable fgt0 : pyfloat -> bool.                 (* x > 0.0 *)
Variable float_of_int : Z -> pyfloat.            (* float(n) *)
Variable fdiv : pyfloat -> pyfloat -> pyfloat.   (* x / y *)

(** [interop_reader.models.TileMetricRecord] *)
Record TileMetricRecord := mkTileMetricRecord {
  lane : Z;
  tile : Z;
  metric_code : Z;
  metric_value : pyfloat
}.

(** [MetricCodes] *)
Definition CLUSTER_DENSITY : Z := 100.
Definition CLUSTER_DENSITY_PASSING_FILTERS : Z := 101.
Definition CLUSTER_COUNT : Z := 102.
Definition CLUSTER_COUNT_PASSING_FILTERS : Z := 103.

(** One turn of [for record in records] on
    [(density_sum, density_count, total_clusters, passing_clusters)]. *)
Definition tile_step (acc : pyfloat * Z * pyfloat * pyfloat) (record : TileMetricRecord)
  : pyfloat * Z * pyfloat * pyfloat :=
  let '(density_sum, density_count, total_clusters, passing_clusters) := acc in
  if metric_code record =? CLUSTER_DENSITY then
    (fadd density_sum (metric_value record), density_count + 1,
     total_clusters, passing_clusters)
  else if metric_code record =? CLUSTER_COUNT then
    (density_sum, density_count,
     fadd total_clusters (metric_value record), passing_clusters)
  else if metric_code record =? CLUSTER_COUNT_PASSING_FILTERS then
    (density_sum, density_count,
     total_clusters, fadd passing_clusters (metric_value record))
  else acc.

(** [summarize_tile_records(records, summary)]: the [summary] dict after
    the call.  [density_sum / density_count] divides a float by an int. *)
Definition summarize_tile_records (records : list TileMetricRecord)
  (summary : list (string * pyfloat)) : list (string * pyfloat) :=
  let '(density_sum, density_count, total_clusters, passing_clusters) :=
    fold_left tile_step records (fzero, 0, fzero, fzero) in
  let summary :=
    if 0 <? density_count
    then dict_set "cluster_density" (fdiv density_sum (float_of_int density_count)) summary
    else summary in
  if fgt0 total_clusters
  then dict_set "pass_rate" (fdiv passing_clusters total_clusters) summary
  else summary.

End Parser.

Arguments mkTileMetricRecord {pyfloat} lane tile metric_code metric_value.
Arguments lane {pyfloat} _.
Arguments tile {pyfloat} _.
Arguments metric_code {pyfloat} _.
Arguments metric_value {pyfloat} _.
Arguments tile_step {pyfloat} fadd acc record.
Arguments summarize_tile_records {pyfloat} fzero fadd fgt0 float_of_int fdiv records summary.

End LegacyTiles.

(** ** The legacy package [interop_reader]: [quality_metrics_parser.py] *)

Module LegacyQuality.

(** Python's [sum] of a list of ints. *)
Definition list_sum (l : list Z) : Z := fold_left Z.add l 0.

(** A record as [summarize_quality_records] reads it: the values of its
    keys ["cycle"] and ["quality_bins"]. *)
Record quality_record := mkQualityRecord {
  cycle : Z;
  quality_bins : list Z
}.

(** [(last_forward_cycle, first_reverse_cycle)] of a non-empty
    [read_lengths]: [read_lengths[0]] and [sum(read_lengths[:-1]) + 1]. *)
Definition cycle_bounds (read_lengths : list Z) : Z * Z :=
  (hd 0 read_lengths, list_sum (removelast read_lengths) + 1).

(** One turn of [for record in records] on
    [(good_count, total_count, good_reverse, total_reverse)]; [bounds] is
    [None] when [read_lengths] is [None] (both cycles are [None]). *)
Definition quality_step (bounds : option (Z * Z)) (acc : Z * Z * Z * Z)
  (record : quality_record) : Z * Z * Z * Z :=
  let '(good_count, total_count, good_reverse, total_reverse) := acc in
  let cycle_clusters := list_sum (quality_bins record) in
  let cycle_good := list_sum (skipn 29 (quality_bins record)) in
  match bounds with
  | None => (good_count + cycle_good, total_count + cycle_clusters, good_reverse, total_reverse)
  | Some (last_forward_cycle, first_reverse_cycle) =>
      if cycle record <=? last_forward_cycle
      then (good_count + cycle_good, total_count + cycle_clusters, good_reverse, total_reverse)
      else if first_reverse_cycle <=? cycle record
      then (good_count, total_count, good_reverse + cycle_good, total_reverse + cycle_clusters)
      else acc
  end.

Section Parser.

Variable pyfloat : Type.
Variable float_of_int : Z -> pyfloat.            (* float(n) *)
Variable fdiv : pyfloat -> pyfloat -> pyfloat.   (* x / y *)

(** [summarize_quality_records(records, summary, read_lengths)]: the
    [summary] dict after the call, or [None] when [read_lengths[0]] raises
    [IndexError] (an empty [read_lengths]).  [good_count / float(total_count)]
    converts both ints to float. *)
Definition summarize_quality_records (records : list quality_record)
  (summary : list (string * pyfloat)) (read_lengths : option (list Z))
  : option (list (string * pyfloat)) :=
  match read_lengths with
  | Some [] => None
  | _ =>
      let bounds := option_map cycle_bounds read_lengths in
      let '(good_count, total_count, good_reverse, total_reverse) :=
        fold_left (quality_step bounds) records (0, 0, 0, 0) in
      let summary :=
        if 0 <? total_count
        then dict_set "q30_fwd" (fdiv (float_of_int good_count) (float_of_int total_count)) summary
        else summary in
      Some (if 0 <? total_reverse
            then dict_set "q30_rev"
                   (fdiv (float_of_int good_reverse) (float_of_int total_reverse)) summary
            else summary)
  end.

End Parser.

Arguments summarize_quality_records {pyfloat} float_of_int fdiv records summary read_lengths.

End LegacyQuality.

(** ** The legacy package [interop_reader]: [models.py]

    The same record classes and the same [__eq__]; [QualityRecord]'s
    custom serializer keys its bins [f"{k:02}"] from [k = 0], and
    [ExtractionRecord.datetime] is [datetime.fromtimestamp(datestamp)],
    which depends on the local time zone and is left abstract. *)

Module LegacyModels.

(** [f"{k:02}"] for [0 <= k <= 99]. *)
Definition qkey (k : nat) : string := String.append (digit (k / 10)) (digit (k mod 10)).

Fixpoint enumerate_from (start : nat) (l : list pyval) : list (string * pyval) :=
  match l with
  | [] => []
  | v :: l' => (qkey start, v) :: enumerate_from (S start) l'
  end.

Section Equality.

Variable isclose : Z -> Z -> bool.
Variable fromtimestamp : Z -> result Z.

Definition model_dump (r : record) : result (list (string * pyval)) :=
  let d := combine (map fst (model_fields (rkind r))) (rvalues r) in
  match rkind r with
  | QualityRecord =>
      match rvalues r with
      | [lane; tile; cycle; PList bins] =>
          Ok ([("lane", lane); ("tile", tile); ("cycle", cycle)]
                ++ enumerate_from 0 bins)
      | _ => Ok d
      end
  | ExtractionRecord =>
      ds <- lookup d "datestamp" ;;
      match ds with
      | PInt z => dt <- fromtimestamp z ;; Ok (d ++ [("datetime", PDatetime dt)])
      | _ => Ok d
      end
  | _ => Ok d
  end.

(** [BaseMetric.__eq__] *)
Definition record_eq (self other : record) : result bool :=
  if Kind_eqb (rkind other) (rkind self) then
    other_dict <- model_dump other ;;
    self_dict <- model_dump self ;;
    arr <- comparison_array isclose self_dict other_dict (model_fields (rkind self)) ;;
    Ok (forallb (fun b => b) arr)
  else Ok false.

End Equality.

End LegacyModels.

(** * Properties *)

Module Bytes.

Lemma byte_val_nonneg b : 0 <= byte_val b.
Proof. unfold byte_val. apply N2Z.is_nonneg. Qed.

Lemma le_value_nonneg l : 0 <= le_value l.
Proof.
  induction l as [|b l IH]; cbn [le_value]; [lia|].
  pose proof (byte_val_nonneg b). lia.
Qed.

Lemma be_value_single b : be_value [b] = byte_val b.
Proof. reflexivity. Qed.

Lemma be_value_nonneg l : 0 <= be_value l.
Proof.
  unfold be_value.
  assert (H : forall acc, 0 <= acc -> 0 <= fold_left (fun acc b => acc * 256 + byte_val b) l acc).
  { induction l as [|b l IH]; intros acc Hacc; cbn [fold_left]; [lia|].
    apply IH. pose proof (byte_val_nonneg b). lia. }
  apply H. lia.
Qed.

Lemma order_value_nonneg o l : 0 <= order_value o l.
Proof. destruct o; [apply le_value_nonneg | apply be_value_nonneg]. Qed.

Lemma unpack_codes_length o codes buf :
  List.length (unpack_codes o codes buf) = List.length codes.
Proof.
  revert buf; induction codes as [|t codes IH]; intros buf; simpl; auto.
Qed.

End Bytes.

Module Header.

(** The header [!BB] of a stream [v :: rl :: body]. *)
Lemma unpack_header v rl :
  unpack HEADER_format [v; rl] = Ok [PInt (byte_val v); PInt (byte_val rl)].
Proof. reflexivity. Qed.

Lemma next_rr_start m v rl body :
  next_rr (RRStart m) (mkFile (v :: rl :: body) 0)
  = if byte_val v <? m
    then (Raise (IOError (FileVersionTooLow (byte_val v) m)), RRDone,
          mkFile (v :: rl :: body) 2)
    else rr_loop (byte_val rl) (mkFile (v :: rl :: body) 2).
Proof. reflexivity. Qed.

End Header.

Module Loop.

Lemma skipn_prefix {A} (pre l : list A) : skipn (List.length pre) (pre ++ l) = l.
Proof. induction pre; simpl; auto. Qed.

(** The loop of [read_records], from a position [pre] bytes into the file,
    over [chunks] of [record_length] bytes followed by a shorter [tail]:
    it yields the chunks, then stops cleanly if the tail is empty and
    raises the partial-record [IOError] otherwise. *)
Lemma run_rr_loop rl chunks tail pre fuel :
  0 < rl ->
  Forall (fun c => List.length c = Z.to_nat rl) chunks ->
  (List.length tail < Z.to_nat rl)%nat ->
  (List.length chunks < fuel)%nat ->
  run next_rr fuel (RRLoop rl) (mkFile (pre ++ List.concat chunks ++ tail) (List.length pre))
  = (chunks, match tail with
             | [] => Finished
             | _ => Raised (IOError (PartialRecord (Z.of_nat (List.length tail))))
             end).
Proof.
  intros Hrl Hchunks Htail.
  revert pre fuel; induction Hchunks as [|c chunks Hc Hchunks IH]; intros pre fuel Hfuel.
  - destruct fuel as [|fuel]; [simpl in Hfuel; lia|].
    cbn [run next_rr List.concat app]. unfold rr_loop, read. cbn [contents pos].
    rewrite skipn_prefix, firstn_all2 by lia.
    destruct tail as [|b tail'].
    + reflexivity.
    + cbn [List.length].
      destruct (Z.eqb_spec (Z.of_nat (S (List.length tail'))) 0) as [H0|H0]; [lia|].
      destruct (Z.ltb_spec (Z.of_nat (S (List.length tail'))) rl) as [H1|H1];
        [reflexivity | cbn [List.length] in Htail; lia].
  - destruct fuel as [|fuel]; [simpl in Hfuel; lia|].
    cbn [run next_rr List.concat]. unfold rr_loop, read. cbn [contents pos].
    rewrite skipn_prefix, <- app_assoc.
    assert (Hfirst : firstn (Z.to_nat rl) (c ++ List.concat chunks ++ tail) = c).
    { rewrite <- Hc, firstn_app, firstn_all, Nat.sub_diag. simpl. apply app_nil_r. }
    rewrite Hfirst, Hc.
    destruct (Z.eqb_spec (Z.of_nat (Z.to_nat rl)) 0) as [H0|H0]; [lia|].
    destruct (Z.ltb_spec (Z.of_nat (Z.to_nat rl)) rl) as [H1|H1]; [lia|].
    match goal with
    | |- context [run next_rr fuel (RRLoop rl) ?f] =>
        replace f with (mkFile ((pre ++ c) ++ List.concat chunks ++ tail)
                               (List.length (pre ++ c)))
    end.
    + rewrite IH by (simpl in Hfuel; lia). reflexivity.
    + rewrite length_app, Hc, !app_assoc. reflexivity.
Qed.

End Loop.

Module Decode.

Lemma codes_match_validate o codes fs buf :
  codes_match codes fs = true ->
  validate_fields fs (unpack_codes o codes buf) = Ok (unpack_codes o codes buf).
Proof.
  revert fs buf; induction codes as [|t codes IH]; intros fs buf Hm.
  - destruct fs; [reflexivity | discriminate].
  - destruct fs as [|[n a] fs]; [discriminate|].
    cbn [codes_match] in Hm. apply andb_prop in Hm as [Ha Hm].
    cbn [unpack_codes validate_fields].
    pose proof (Bytes.order_value_nonneg o (firstn (field_size t) buf)) as Hnn.
    destruct t, a; try discriminate; cbn [validate_field];
      try (rewrite (proj2 (Z.leb_le _ _) Hnn)); cbn [bind];
      rewrite IH by exact Hm; reflexivity.
Qed.

Lemma unpack_codes_ints o codes buf :
  forallb (fun t => match t with Ff => false | _ => true end) codes = true ->
  forallb (fun x => match x with PInt _ => true | _ => false end)
    (unpack_codes o codes buf) = true.
Proof.
  revert buf; induction codes as [|t codes IH]; intros buf H; [reflexivity|].
  cbn [forallb] in H. apply andb_prop in H as [Ht H].
  cbn [unpack_codes forallb]. rewrite IH by exact H.
  destruct t; try discriminate; reflexivity.
Qed.

(** The layout of every reader's format. *)
Lemma reader_layout rd :
  In rd readers ->
  exists codes,
    parse_format (format (rformat rd)) = Some (LittleEndian, codes) /\
    calcsize_codes codes = Z.to_nat (length (rformat rd)) /\
    0 < length (rformat rd).
Proof.
  intros Hin; cbn [readers In] in Hin.
  repeat (destruct Hin as [<-|Hin];
    [eexists; split; [reflexivity|split; [reflexivity|cbv; reflexivity]]|]).
  contradiction.
Qed.

Lemma unpack_wrong_size fmt codes buf :
  parse_format fmt = Some (LittleEndian, codes) ->
  List.length buf <> calcsize_codes codes ->
  unpack fmt buf = Err StructError.
Proof.
  intros Hp Hl. unfold unpack. rewrite Hp.
  destruct (Nat.eqb_spec (List.length buf) (calcsize_codes codes)); [contradiction | reflexivity].
Qed.

Lemma unpack_right_size fmt o codes buf :
  parse_format fmt = Some (o, codes) ->
  List.length buf = calcsize_codes codes ->
  unpack fmt buf = Ok (unpack_codes o codes buf).
Proof.
  intros Hp Hl. unfold unpack. rewrite Hp, Hl, Nat.eqb_refl. reflexivity.
Qed.

(** Every chunk of at least the layout's length decodes to a record. *)
Lemma decode_record_ok rd data :
  In rd readers ->
  (Z.to_nat (length (rformat rd)) <= List.length data)%nat ->
  exists r, decode_record rd data = Ok r.
Proof.
  intros Hin Hlen.
  destruct (reader_layout rd Hin) as [codes [Hp [Hc _]]].
  unfold decode_record.
  rewrite (unpack_right_size _ _ _ _ Hp)
    by (rewrite length_firstn, Hc; lia).
  cbn [bind].
  set (buf := firstn _ data). clearbody buf.
  cbn [readers In] in Hin.
  destruct Hin as [<-|[<-|[<-|[<-|[<-|[]]]]]];
    cbv in Hp; injection Hp as <-;
    try (eexists; unfold construct;
         cbn [rargs rkind_of read_errors_reader read_tiles_reader
              read_corrected_intensities_reader read_extractions_reader];
         rewrite codes_match_validate by reflexivity; reflexivity).
  (* [read_quality]: the 50 bins are regrouped into one list *)
  change (FH :: FH :: FH :: ?rest) with (FH :: FH :: FH :: repeat FL 50).
  cbn [rargs rkind_of read_quality_reader unpack_codes firstn skipn].
  unfold construct. cbn [model_fields uint_fields map app validate_fields validate_field].
  repeat rewrite (proj2 (Z.leb_le _ _) (Bytes.order_value_nonneg _ _)).
  cbn [bind].
  rewrite unpack_codes_ints by reflexivity.
  rewrite Bytes.unpack_codes_length. cbn -[unpack_codes].
  eexists; reflexivity.
Qed.

(** A decoding generator mirrors the [read_records] generator under it as
    long as every raw record decodes. *)
Lemma run_fmt_iter rd fuel g f chunks o rs :
  run next_rr fuel g f = (chunks, o) ->
  Forall2 (fun c r => decode_record rd c = Ok r) chunks rs ->
  run (next_fmt rd) fuel (FIter g) f = (rs, o).
Proof.
  revert g f chunks rs; induction fuel as [|fuel IH]; intros g f chunks rs Hrun Hdec.
  - cbn in Hrun. injection Hrun as <- <-. inversion Hdec. reflexivity.
  - cbn [run] in Hrun |- *. cbn [next_fmt]. unfold fmt_iter.
    destruct (next_rr g f) as [[[data| |e] g'] f'].
    + destruct (run next_rr fuel g' f') as [l o'] eqn:Hl.
      injection Hrun as <- <-. inversion Hdec as [|c r cs rs' Hc Hrest]; subst.
      rewrite Hc. erewrite IH by eassumption. reflexivity.
    + injection Hrun as <- <-. inversion Hdec. reflexivity.
    + injection Hrun as <- <-. inversion Hdec. reflexivity.
Qed.

Lemma run_fmt_start rd fuel f :
  run (next_fmt rd) fuel FStart f
  = run (next_fmt rd) fuel (FIter (RRStart (min_version (rformat rd)))) f.
Proof. destruct fuel; reflexivity. Qed.

Lemma run_rr_start m v rl body fuel :
  m <= byte_val v ->
  run next_rr (S fuel) (RRStart m) (mkFile (v :: rl :: body) 0)
  = run next_rr (S fuel) (RRLoop (byte_val rl)) (mkFile ([v; rl] ++ body) 2).
Proof.
  intros Hv. cbn [run]. rewrite Header.next_rr_start.
  destruct (Z.ltb_spec (byte_val v) m); [lia|]. reflexivity.
Qed.

Lemma rr_loop_chunk rl pre c rest :
  0 < rl -> List.length c = Z.to_nat rl ->
  rr_loop rl (mkFile (pre ++ c ++ rest) (List.length pre))
  = (Yield c, RRLoop rl, mkFile (pre ++ c ++ rest) (List.length pre + List.length c)).
Proof.
  intros Hrl Hc. unfold rr_loop, read. cbn [contents pos].
  rewrite Loop.skipn_prefix.
  assert (Hfirst : firstn (Z.to_nat rl) (c ++ rest) = c).
  { rewrite <- Hc, firstn_app, firstn_all, Nat.sub_diag. simpl. apply app_nil_r. }
  rewrite Hfirst, Hc.
  destruct (Z.eqb_spec (Z.of_nat (Z.to_nat rl)) 0); [lia|].
  destruct (Z.ltb_spec (Z.of_nat (Z.to_nat rl)) rl); [lia|].
  reflexivity.
Qed.

End Decode.

Module Eq.

Lemma qkey_not_quality_bins n : String.eqb "quality_bins" (qkey n) = false.
Proof.
  destruct (String.eqb_spec "quality_bins" (qkey n)) as [H|H]; [|reflexivity].
  apply (f_equal String.length) in H. unfold qkey, digit in H. simpl in H. discriminate.
Qed.

(** The flat [q01 .. q50] keys of [custom_serializer] never include
    [quality_bins]. *)
Lemma lookup_enumerate_quality_bins n l :
  lookup (enumerate_from n l) "quality_bins" = Err (KeyError "quality_bins").
Proof.
  revert n; induction l as [|v l IH]; intros n; [reflexivity|].
  cbn [enumerate_from lookup]. rewrite qkey_not_quality_bins. apply IH.
Qed.

End Eq.

Definition quality_row : list pyval := [PInt 1; PInt 1; PInt 1] ++ repeat (PInt 0) 50.

Definition extraction_row : list pyval :=
  [PInt 1; PInt 1; PInt 1; PFloat 0; PFloat 0; PFloat 0; PFloat 0;
   PInt 0; PInt 0; PInt 0; PInt 0; PInt (2 ^ 62 - 1)].

(** ** C1 *)

(** C1 (code_bug).  Round trip through the test-data generator and the
    decoder: for the quality format the decoded record has exactly the
    row's field values, yet comparing it with the expected record raises
    [KeyError('quality_bins')]; for the extraction format a row whose
    datestamp lies past year 9999 makes the comparison raise
    [OverflowError] from the computed [datetime]. *)
Theorem roundtrip_comparison_raises (isclose : Z -> Z -> bool) :
  let rq := mkRecord QualityRecord (rargs read_quality_reader quality_row) in
  let rx := mkRecord ExtractionRecord extraction_row in
  bind (encode QUALITY [quality_row])
       (fun f => Ok (run (next_fmt read_quality_reader) 3 FStart f))
    = Ok ([rq], Finished) /\
  construct QualityRecord (rargs read_quality_reader quality_row) = Ok rq /\
  record_eq isclose rq rq = Err (KeyError "quality_bins") /\
  bind (encode EXTRACTION [extraction_row])
       (fun f => Ok (run (next_fmt read_extractions_reader) 3 FStart f))
    = Ok ([rx], Finished) /\
  record_eq isclose rx rx = Err OverflowError.
Proof.
  intros rq rx.
  split; [vm_compute; reflexivity|].
  split; [vm_compute; reflexivity|].
  split; [vm_compute; reflexivity|].
  split; [vm_compute; reflexivity|].
  vm_compute; reflexivity.
Qed.

(** ** C2 *)

(** C2 (amended).  Each raw record is [record_length] bytes, the length
    declared in the header, not the layout's length: the [read_records]
    generator yields the body in chunks of that size; a header length of 0
    yields no record whatever the body holds; and a header length shorter
    than the layout makes the first record fail to unpack. *)
Theorem reader_record_length_from_header rd v rl chunks fuel :
  In rd readers ->
  min_version (rformat rd) <= byte_val v ->
  Forall (fun c => List.length c = Z.to_nat (byte_val rl)) chunks ->
  (List.length chunks < fuel)%nat ->
  (0 < byte_val rl ->
     run next_rr fuel (RRStart (min_version (rformat rd)))
       (mkFile (v :: rl :: List.concat chunks) 0) = (chunks, Finished)) /\
  (byte_val rl = 0 -> forall body,
     run (next_fmt rd) fuel FStart (mkFile (v :: rl :: body) 0) = ([], Finished)) /\
  (0 < byte_val rl < length (rformat rd) -> chunks <> [] ->
     run (next_fmt rd) fuel FStart (mkFile (v :: rl :: List.concat chunks) 0)
     = ([], Raised StructError)).
Proof.
  intros Hin Hv Hchunks Hfuel.
  destruct fuel as [|fuel]; [lia|].
  split; [|split].
  - intros Hrl.
    rewrite Decode.run_rr_start by exact Hv.
    rewrite <- (app_nil_r (List.concat chunks)).
    apply (Loop.run_rr_loop (byte_val rl) chunks [] [v; rl]); auto.
    simpl; lia.
  - intros Hrl0 body.
    cbn [run next_fmt]. unfold fmt_iter.
    rewrite Header.next_rr_start.
    destruct (Z.ltb_spec (byte_val v) (min_version (rformat rd))); [lia|].
    rewrite Hrl0. reflexivity.
  - intros [Hrl HL] Hne.
    destruct Hchunks as [|c chunks Hc _]; [contradiction|].
    destruct (Decode.reader_layout rd Hin) as [codes [Hp [Hcs _]]].
    cbn [run next_fmt]. unfold fmt_iter.
    rewrite Header.next_rr_start.
    destruct (Z.ltb_spec (byte_val v) (min_version (rformat rd))); [lia|].
    cbn [List.concat].
    change (v :: rl :: c ++ List.concat chunks) with ([v; rl] ++ c ++ List.concat chunks).
    rewrite (Decode.rr_loop_chunk (byte_val rl) [v; rl] c) by assumption.
    unfold decode_record.
    rewrite (Decode.unpack_wrong_size _ codes) by
      (try exact Hp; rewrite length_firstn, Hc, Hcs; lia).
    reflexivity.
Qed.

(** ** C4 *)

(** C4.  A stream whose header version is below the format's minimum: the
    first [next] reads the two header bytes only and raises the version
    [IOError]; the decoded sequence has no record. *)
Theorem reader_version_rejected rd v rl body fuel :
  byte_val v < min_version (rformat rd) ->
  next_fmt rd FStart (mkFile (v :: rl :: body) 0)
  = (Raise (IOError (FileVersionTooLow (byte_val v) (min_version (rformat rd)))),
     FDone, mkFile (v :: rl :: body) 2) /\
  run (next_fmt rd) (S fuel) FStart (mkFile (v :: rl :: body) 0)
  = ([], Raised (IOError (FileVersionTooLow (byte_val v) (min_version (rformat rd))))).
Proof.
  intros Hv.
  assert (Hnext : next_fmt rd FStart (mkFile (v :: rl :: body) 0)
    = (Raise (IOError (FileVersionTooLow (byte_val v) (min_version (rformat rd)))),
       FDone, mkFile (v :: rl :: body) 2)).
  { cbn [next_fmt]. unfold fmt_iter. rewrite Header.next_rr_start.
    destruct (Z.ltb_spec (byte_val v) (min_version (rformat rd))); [reflexivity|lia]. }
  split; [exact Hnext|].
  cbn [run]. rewrite Hnext. reflexivity.
Qed.

(** ** C5 *)


(** ** C10 *)

(** C10.  Calling a reader (or [read_records]) returns the generator and
    leaves the file untouched; the version [IOError] of a stream below the
    minimum version comes from the first [next]. *)
Theorem readers_defer_io rd f m :
  call_reader rd f = (FStart, f) /\
  read_records f m = (RRStart m, f) /\
  (forall v rl body, f = mkFile (v :: rl :: body) 0 ->
     byte_val v < min_version (rformat rd) ->
     fst (fst (next_fmt rd FStart f))
     = Raise (IOError (FileVersionTooLow (byte_val v) (min_version (rformat rd))))) /\
  (forall v rl body, f = mkFile (v :: rl :: body) 0 -> byte_val v < m ->
     fst (fst (next_rr (RRStart m) f)) = Raise (IOError (FileVersionTooLow (byte_val v) m))).
Proof.
  split; [reflexivity|]. split; [reflexivity|]. split.
  - intros v rl body -> Hv. cbn [next_fmt]. unfold fmt_iter.
    rewrite Header.next_rr_start.
    destruct (Z.ltb_spec (byte_val v) (min_version (rformat rd))); [reflexivity|lia].
  - intros v rl body -> Hv. rewrite Header.next_rr_start.
    destruct (Z.ltb_spec (byte_val v) m); [reflexivity|lia].
Qed.

(** ** C3 *)

(** C3 (the table as stated): error 20 bytes, tile 10, quality 106,
    corrected intensity 48, extraction 38, image 12, phasing 14. *)
Lemma registry_table_cex :
  ~ (length ERROR = 20 /\ length TILE = 10 /\ length QUALITY = 106 /\
     length CORRECTEDINTENSITY = 48 /\ length EXTRACTION = 38 /\
     length IMAGE = 12 /\ length PHASING = 14).
Proof. intros [H _]. vm_compute in H. discriminate. Qed.

(** C3 (amended).  The registry's lengths and little-endian field layouts:
    error 30 bytes (3 x u16, f32, 5 x u32), tile 10 (3 x u16, f32), quality
    206 (3 x u16, 50 x u32), corrected intensity 48 (12 x u16, 5 x u32,
    f32), extraction 38 (3 x u16, 4 x f32, 4 x u16, u64), image 12
    (6 x u16), phasing 14 (3 x u16, 2 x f32); every length is the packed
    size of its format. *)
Theorem registry_layouts :
  parse_format (format ERROR) = Some (LittleEndian, repeat FH 3 ++ [Ff] ++ repeat FL 5) /\
  length ERROR = 30 /\
  parse_format (format TILE) = Some (LittleEndian, repeat FH 3 ++ [Ff]) /\
  length TILE = 10 /\
  parse_format (format QUALITY) = Some (LittleEndian, repeat FH 3 ++ repeat FL 50) /\
  length QUALITY = 206 /\
  parse_format (format CORRECTEDINTENSITY)
    = Some (LittleEndian, repeat FH 12 ++ repeat FI 5 ++ [Ff]) /\
  length CORRECTEDINTENSITY = 48 /\
  parse_format (format EXTRACTION)
    = Some (LittleEndian, repeat FH 3 ++ repeat Ff 4 ++ repeat FH 4 ++ [FQ]) /\
  length EXTRACTION = 38 /\
  parse_format (format IMAGE) = Some (LittleEndian, repeat FH 6) /\
  length IMAGE = 12 /\
  parse_format (format PHASING) = Some (LittleEndian, repeat FH 3 ++ repeat Ff 2) /\
  length PHASING = 14 /\
  Forall (fun fmt => calcsize (format fmt) = Some (Z.to_nat (length fmt))) registry.
Proof.
  repeat split; try (vm_compute; reflexivity).
  repeat constructor; vm_compute; reflexivity.
Qed.

(** ** C6 *)

(** C6 (as stated): the derived timestamp is exactly [0001-01-01] plus
    [datestamp mod 2^62] hundred-nanosecond intervals. *)
Lemma extraction_datetime_exact_cex :
  ~ (forall datestamp, 0 <= datestamp < 2 ^ 64 ->
       exists us, extraction_datetime datestamp = Ok us /\
                  10 * us = datestamp mod 2 ^ 62).
Proof.
  intros H. destruct (H 5) as [us [Hd Hus]]; [lia|].
  vm_compute in Hd. injection Hd as <-. vm_compute in Hus. discriminate.
Qed.

(** C6 (amended).  Datestamp 0 gives exactly [0001-01-01T00:00:00]; the
    result depends only on [datestamp mod 2^62], so datestamps differing in
    their top 2 bits give the same result; the interval count is rounded
    to whole microseconds (5 intervals give [0001-01-01T00:00:00]) and a
    masked count past year 9999 raises [OverflowError]. *)
Theorem extraction_datetime_masked :
  extraction_datetime 0 = Ok 0 /\
  extraction_datetime 5 = Ok 0 /\
  extraction_datetime (2 ^ 62 - 1) = Err OverflowError /\
  (forall d1 d2, d1 mod 2 ^ 62 = d2 mod 2 ^ 62 ->
     extraction_datetime d1 = extraction_datetime d2).
Proof.
  split; [vm_compute; reflexivity|].
  split; [vm_compute; reflexivity|].
  split; [vm_compute; reflexivity|].
  intros d1 d2 Hmod. unfold extraction_datetime.
  assert (Hmask : bitmask = Z.ones 62) by (vm_compute; reflexivity).
  rewrite Hmask, !Z.land_ones, Hmod by lia. reflexivity.
Qed.

(** ** C7 *)

(** C7.  With non-negative [lane], [tile] and [cycle], constructing a
    [QualityRecord] succeeds exactly when the histogram has 50 bins, and
    fails with a [ValidationError] on [quality_bins] otherwise. *)
Theorem quality_record_bins_validation lane tile cycle (bins : list Z) :
  0 <= lane -> 0 <= tile -> 0 <= cycle ->
  construct QualityRecord [PInt lane; PInt tile; PInt cycle; PList (map PInt bins)]
  = if Nat.eqb (List.length bins) 50
    then Ok (mkRecord QualityRecord [PInt lane; PInt tile; PInt cycle; PList (map PInt bins)])
    else Err (ValidationError "quality_bins").
Proof.
  intros Hl Ht Hc. unfold construct.
  cbn [model_fields uint_fields map app validate_fields validate_field].
  rewrite (proj2 (Z.leb_le _ _) Hl), (proj2 (Z.leb_le _ _) Ht), (proj2 (Z.leb_le _ _) Hc).
  cbn [bind].
  assert (Hints : forallb (fun x => match x with PInt _ => true | _ => false end)
                    (map PInt bins) = true)
    by (induction bins; simpl; auto).
  rewrite Hints, length_map.
  destruct (Nat.eqb (List.length bins) 50); reflexivity.
Qed.

(** ** C8 *)


(** ** C9 *)

(** C9 (code_bug).  Comparing two [QualityRecord]s raises
    [KeyError('quality_bins')], whatever their fields: [__eq__] looks up
    every model field in [model_dump()], which the custom serializer
    flattens into [q01 .. q50]. *)
Theorem quality_record_eq_raises (isclose : Z -> Z -> bool) p1 p2 p3 bins q1 q2 q3 bins' :
  record_eq isclose (mkRecord QualityRecord [p1; p2; p3; PList bins])
                    (mkRecord QualityRecord [q1; q2; q3; PList bins'])
  = Err (KeyError "quality_bins").
Proof.
  unfold record_eq. cbn [rkind Kind_eqb]. unfold model_dump. cbn [rkind rvalues].
  cbn [bind model_fields uint_fields map app comparison_array compare_field].
  cbn [lookup String.eqb Ascii.eqb Bool.eqb andb bind].
  rewrite Eq.lookup_enumerate_quality_bins. reflexivity.
Qed.

(** ** C2, as stated *)

(** A file of format version 3 whose header declares 40-byte records,
    with one 40-byte record of zeros. *)
Definition header40_file : file :=
  mkFile (Byte.x03 :: Byte.x28 :: repeat Byte.x00 40) 0.

(** C2 (as stated): every record the decoder yields is read as
    [layout.length] bytes.  On [header40_file], [read_errors] consumes 40
    bytes for its first record, not the error layout's 30. *)
Lemma reader_record_length_cex :
  ~ (forall rd f s g f',
       In rd readers ->
       next_fmt rd FStart f = (s, g, f') ->
       (exists r, s = Yield r) ->
       pos f' = (2 + Z.to_nat (length (rformat rd)))%nat).
Proof.
  intros H.
  destruct (next_fmt read_errors_reader FStart header40_file) as [[s g] f'] eqn:E.
  pose proof E as E'. vm_compute in E'.
  injection E' as <- <- <-.
  specialize (H read_errors_reader header40_file _ _ _ (or_introl eq_refl) E).
  vm_compute in H. discriminate H. eexists; reflexivity.
Qed.

(** * Witnesses *)

Ltac zdecide := vm_compute; first [reflexivity | intro; discriminate].

Lemma reader_record_length_from_header_witness :
  run next_rr 2 (RRStart 3) (mkFile (Byte.x03 :: Byte.x28 :: List.concat [repeat Byte.x00 40]) 0)
  = ([repeat Byte.x00 40], Finished).
Proof.
  refine (proj1 (reader_record_length_from_header read_errors_reader
                   Byte.x03 Byte.x28 [repeat Byte.x00 40] 2 _ _ _ _) _).
  - simpl; auto.
  - zdecide.
  - repeat constructor.
  - simpl; lia.
  - zdecide.
Defined.

Lemma reader_version_rejected_witness :
  byte_val Byte.x01 < 3 /\
  run (next_fmt read_errors_reader) 1 FStart (mkFile [Byte.x01; Byte.x1e] 0)
  = ([], Raised (IOError (FileVersionTooLow 1 3))).
Proof.
  split; [zdecide|].
  exact (proj2 (reader_version_rejected read_errors_reader Byte.x01 Byte.x1e [] 0
                  ltac:(zdecide))).
Defined.


Lemma readers_defer_io_witness :
  fst (fst (next_fmt read_errors_reader FStart (mkFile [Byte.x01; Byte.x1e] 0)))
  = Raise (IOError (FileVersionTooLow 1 3)).
Proof.
  apply (proj1 (proj2 (proj2 (readers_defer_io read_errors_reader
                                (mkFile [Byte.x01; Byte.x1e] 0) 3)))
           Byte.x01 Byte.x1e []).
  - reflexivity.
  - zdecide.
Defined.

Lemma extraction_datetime_masked_witness :
  extraction_datetime 5 = extraction_datetime (5 + 3 * 2 ^ 62).
Proof.
  apply (proj2 (proj2 (proj2 extraction_datetime_masked))).
  vm_compute; reflexivity.
Defined.

Lemma quality_record_bins_validation_witness :
  construct QualityRecord [PInt 0; PInt 1; PInt 2; PList (map PInt (repeat 0 49))]
    = Err (ValidationError "quality_bins") /\
  construct QualityRecord [PInt 0; PInt 1; PInt 2; PList (map PInt (repeat 0 51))]
    = Err (ValidationError "quality_bins") /\
  construct QualityRecord [PInt 0; PInt 1; PInt 2; PList (map PInt (repeat 0 50))]
    = Ok (mkRecord QualityRecord [PInt 0; PInt 1; PInt 2; PList (map PInt (repeat 0 50))]).
Proof.
  split; [|split].
  - rewrite (quality_record_bins_validation 0 1 2 (repeat 0 49)) by lia. reflexivity.
  - rewrite (quality_record_bins_validation 0 1 2 (repeat 0 51)) by lia. reflexivity.
  - rewrite (quality_record_bins_validation 0 1 2 (repeat 0 50)) by lia. reflexivity.
Defined.


(** * Further properties *)

Module Struct.

Lemma byte_val_byte_of_Z z : byte_val (byte_of_Z z) = z mod 256.
Proof.
  pose proof (Z.mod_pos_bound z 256) as Hb.
  unfold byte_of_Z, byte_val.
  destruct (Byte.of_N (Z.to_N (z mod 256))) as [b|] eqn:E.
  - apply Byte.to_of_N in E. rewrite E, Z2N.id; lia.
  - apply Byte.of_N_None_iff in E. lia.
Qed.

Lemma le_bytes_length w v : List.length (le_bytes w v) = w.
Proof. revert v; induction w; intros v; simpl; auto. Qed.

Lemma order_bytes_length o w v : List.length (order_bytes o w v) = w.
Proof. destruct o; simpl; [|rewrite length_rev]; apply le_bytes_length. Qed.

Lemma le_value_le_bytes w x :
  0 <= x < 2 ^ (8 * Z.of_nat w) -> le_value (le_bytes w x) = x.
Proof.
  revert x; induction w as [|w IH]; intros x Hx.
  - simpl in Hx. simpl. lia.
  - cbn [le_bytes le_value]. rewrite byte_val_byte_of_Z.
    assert (Hp : 2 ^ (8 * Z.of_nat (S w)) = 2 ^ (8 * Z.of_nat w) * 256).
    { rewrite Nat2Z.inj_succ, Z.mul_succ_r, Z.pow_add_r by lia. reflexivity. }
    rewrite IH.
    + pose proof (Z.div_mod x 256). lia.
    + split; [apply Z.div_pos; lia|].
      apply Z.div_lt_upper_bound; lia.
Qed.

Lemma be_value_rev l : be_value (rev l) = le_value l.
Proof.
  unfold be_value. induction l as [|b l IH]; [reflexivity|].
  cbn [rev le_value]. rewrite fold_left_app, IH. cbn [fold_left]. lia.
Qed.

Lemma order_value_bytes o w x :
  0 <= x < 2 ^ (8 * Z.of_nat w) -> order_value o (order_bytes o w x) = x.
Proof.
  intros Hx. destruct o; cbn [order_value order_bytes].
  - apply le_value_le_bytes, Hx.
  - rewrite be_value_rev. apply le_value_le_bytes, Hx.
Qed.

Lemma firstn_prefix {A} (pre l : list A) : firstn (List.length pre) (pre ++ l) = pre.
Proof. induction pre; simpl; f_equal; auto. Qed.

(** What [struct.pack] writes, [struct.unpack] reads back. *)
Lemma pack_codes_unpack o codes vs bs :
  pack_codes o codes vs = Ok bs ->
  List.length bs = calcsize_codes codes /\ unpack_codes o codes bs = vs.
Proof.
  revert vs bs; induction codes as [|t codes IH]; intros vs bs H.
  - destruct vs; cbn in H; [|discriminate]. injection H as <-. split; reflexivity.
  - destruct vs as [|v vs]; [discriminate|].
    cbn [pack_codes] in H.
    set (w := field_size t) in H.
    destruct (match t, v with
              | Ff, PFloat x => Some x | Ff, _ => None
              | _, PInt x => Some x | _, _ => None end) as [x|] eqn:Hz;
      [|discriminate].
    destruct ((0 <=? x) && (x <? 2 ^ (8 * Z.of_nat w))) eqn:Hr; [|discriminate].
    apply andb_prop in Hr as [Hr1 Hr2].
    apply Z.leb_le in Hr1. apply Z.ltb_lt in Hr2.
    destruct (pack_codes o codes vs) as [rest|e] eqn:Hp; cbn [bind] in H; [|discriminate].
    injection H as <-.
    destruct (IH vs rest Hp) as [Hl Hu].
    split.
    + rewrite length_app, order_bytes_length, Hl. reflexivity.
    + cbn [unpack_codes]. fold w.
      pose proof (firstn_prefix (order_bytes o w x) rest) as Hf.
      pose proof (Loop.skipn_prefix (order_bytes o w x) rest) as Hs.
      rewrite order_bytes_length in Hf, Hs.
      rewrite Hf, Hs, Hu, order_value_bytes by lia.
      f_equal.
      destruct t, v; cbn in Hz; try discriminate; injection Hz as ->; reflexivity.
Qed.

Lemma pack_unpack fmt vs bs :
  pack fmt vs = Ok bs ->
  unpack fmt bs = Ok vs /\ calcsize fmt = Some (List.length bs).
Proof.
  unfold pack, unpack, calcsize. intros H.
  destruct (parse_format fmt) as [[o codes]|]; [|discriminate].
  destruct (pack_codes_unpack o codes vs bs H) as [Hl Hu].
  rewrite Hl, Nat.eqb_refl, Hu. split; reflexivity.
Qed.

End Struct.

Module Encode.

(** The header every test-data generator of the registry writes. *)
Lemma registry_header fmt :
  In fmt registry ->
  exists v rl, gen_header fmt = Ok [v; rl] /\
    byte_val v = min_version fmt /\ byte_val rl = length fmt /\
    calcsize (format fmt) = Some (Z.to_nat (length fmt)) /\ 0 < length fmt.
Proof.
  intros Hin; cbn [registry In] in Hin.
  repeat (destruct Hin as [<-|Hin];
    [eexists _, _; split; [reflexivity|]; repeat split; vm_compute; reflexivity|]).
  contradiction.
Qed.

Lemma generate_binary_packs fmt rows bss :
  generate_binary fmt rows = Ok bss ->
  Forall2 (fun row bs => pack (format fmt) row = Ok bs) rows bss.
Proof.
  revert bss; induction rows as [|row rows IH]; intros bss H.
  - injection H as <-. constructor.
  - cbn [generate_binary] in H.
    destruct (pack (format fmt) row) as [b|e] eqn:Hb; cbn [bind] in H; [|discriminate].
    destruct (generate_binary fmt rows) as [rest|e] eqn:Hr; cbn [bind] in H; [|discriminate].
    injection H as <-. constructor; auto.
Qed.

(** Reading back a file written by a generator of the registry: the raw
    records are the packed rows, and each unpacks to its row. *)
Lemma read_encoded fmt rows bss fuel :
  In fmt registry ->
  generate_binary fmt rows = Ok bss ->
  (List.length rows < fuel)%nat ->
  exists f, encode fmt rows = Ok f /\
    run next_rr fuel (RRStart (min_version fmt)) f = (bss, Finished) /\
    Forall2 (fun row bs => unpack (format fmt) bs = Ok row) rows bss /\
    Forall (fun bs => List.length bs = Z.to_nat (length fmt)) bss.
Proof.
  intros Hin Hg Hfuel.
  destruct (registry_header fmt Hin) as (v & rl & Hh & Hv & Hrl & Hc & Hpos).
  pose proof (generate_binary_packs fmt rows bss Hg) as Hp.
  assert (Hu : Forall2 (fun row bs => unpack (format fmt) bs = Ok row) rows bss /\
               Forall (fun bs => List.length bs = Z.to_nat (length fmt)) bss).
  { clear Hg Hfuel. induction Hp as [|row bs rows' bss' Hb _ [IH1 IH2]].
    - split; constructor.
    - destruct (Struct.pack_unpack _ _ _ Hb) as [Hun Hcs].
      rewrite Hc in Hcs. injection Hcs as Hcs.
      split; constructor; auto. }
  destruct Hu as [Hu Hlen].
  exists (mkFile ([v; rl] ++ List.concat bss) 0).
  split; [unfold encode; rewrite Hh, Hg; reflexivity|].
  split; [|split; assumption].
  destruct fuel as [|fuel]; [lia|].
  change ([v; rl] ++ List.concat bss) with (v :: rl :: List.concat bss).
  rewrite Decode.run_rr_start by lia.
  rewrite <- (app_nil_r (List.concat bss)).
  apply (Loop.run_rr_loop (byte_val rl) bss [] [v; rl]).
  - lia.
  - rewrite Hrl. exact Hlen.
  - rewrite Hrl. simpl; lia.
  - apply Forall2_length in Hp. unfold bytes in *. lia.
Qed.

Lemma validate_fields_values fs vs vals :
  validate_fields fs vs = Ok vals -> vals = vs.
Proof.
  revert vs vals; induction fs as [|[n a] fs IH]; intros vs vals H.
  - destruct vs; cbn in H; [injection H as <-; reflexivity|discriminate].
  - destruct vs as [|v vs]; cbn [validate_fields] in H; [discriminate|].
    destruct (validate_field n a v) as [v'|e] eqn:Hv; cbn [bind] in H; [|discriminate].
    destruct (validate_fields fs vs) as [rest|e] eqn:Hr; cbn [bind] in H; [|discriminate].
    injection H as <-. rewrite (IH vs rest Hr).
    f_equal. unfold validate_field in Hv.
    destruct a, v; try discriminate;
      repeat match goal with
             | H : (if ?c then _ else _) = _ |- _ => destruct c
             end;
      congruence.
Qed.

Lemma construct_values k vs r : construct k vs = Ok r -> r = mkRecord k vs.
Proof.
  unfold construct. destruct (validate_fields (model_fields k) vs) as [vals|e] eqn:H;
    cbn [bind]; [|discriminate].
  intros E; injection E as <-. rewrite (validate_fields_values _ _ _ H). reflexivity.
Qed.

Lemma readers_registry rd : In rd readers -> In (rformat rd) registry.
Proof.
  intros Hin; cbn [readers In] in Hin.
  destruct Hin as [<-|[<-|[<-|[<-|[<-|[]]]]]]; cbn; tauto.
Qed.

(** Decoding a file written by the generator of a reader's format gives
    one record per row, holding the row's values. *)
Lemma decode_encoded rd rows bss fuel :
  In rd readers ->
  generate_binary (rformat rd) rows = Ok bss ->
  (List.length rows < fuel)%nat ->
  exists f, encode (rformat rd) rows = Ok f /\
    run (next_fmt rd) fuel FStart f
    = (map (fun row => mkRecord (rkind_of rd) (rargs rd row)) rows, Finished).
Proof.
  intros Hin Hg Hfuel.
  destruct (read_encoded (rformat rd) rows bss fuel (readers_registry rd Hin) Hg Hfuel)
    as (f & Hf & Hrun & Hu & Hlen).
  exists f. split; [exact Hf|].
  rewrite Decode.run_fmt_start.
  apply Decode.run_fmt_iter with (chunks := bss); [exact Hrun|].
  clear Hg Hfuel Hrun Hf.
  induction Hu as [|row bs rows' bss' Hb _ IH]; [constructor|].
  inversion Hlen as [|? ? Hl Hlen']; subst.
  cbn [map]. constructor; [|apply IH; exact Hlen'].
  destruct (Decode.decode_record_ok rd bs Hin) as [r Hr]; [lia|].
  unfold decode_record in Hr |- *.
  rewrite firstn_all2 in Hr |- * by lia.
  rewrite Hb in Hr |- *. cbn [bind] in Hr |- *.
  rewrite Hr. f_equal. exact (construct_values _ _ _ Hr).
Qed.

End Encode.

Module EqProps.

Lemma pyval_eqb_refl : forall v, pyval_eqb v v = true.
Proof.
  fix IH 1. intros [z|z|l|z]; cbn [pyval_eqb]; try apply Z.eqb_refl.
  revert l. fix IHl 1. intros [|a l]; [reflexivity|].
  cbn. rewrite (IH a). apply (IHl l).
Qed.

Lemma pyval_eqb_sym : forall a b, pyval_eqb a b = pyval_eqb b a.
Proof.
  fix IH 1. intros [x|x|xs|x] [y|y|ys|y]; cbn [pyval_eqb]; try reflexivity;
    try apply Z.eqb_sym.
  revert xs ys. fix IHl 1. intros [|a xs] [|b ys]; try reflexivity.
  cbn. rewrite (IH a b). f_equal. apply (IHl xs ys).
Qed.

Lemma lookup_cases d k : (exists v, lookup d k = Ok v) \/ lookup d k = Err (KeyError k).
Proof.
  induction d as [|[k' v] d IH]; [right; reflexivity|].
  cbn [lookup]. destruct (String.eqb k k'); [left; eexists; reflexivity|exact IH].
Qed.

Lemma lookup_in d k v : lookup d k = Ok v -> In (k, v) d.
Proof.
  induction d as [|[k' v'] d IH]; cbn [lookup]; [discriminate|].
  destruct (String.eqb_spec k k') as [<-|_]; intros H.
  - injection H as <-. left; reflexivity.
  - right; auto.
Qed.

Lemma lookup_exists d k : In k (map fst d) -> exists v, lookup d k = Ok v.
Proof.
  induction d as [|[k' v'] d IH]; cbn [map fst In lookup]; [contradiction|].
  destruct (String.eqb_spec k k') as [<-|Hne]; intros H; [eexists; reflexivity|].
  apply IH. destruct H as [H|H]; [congruence|exact H].
Qed.

Lemma map_fst_combine {A B} (l : list A) (l' : list B) :
  List.length l = List.length l' -> map fst (combine l l') = l.
Proof.
  revert l'; induction l as [|a l IH]; intros [|b l'] H; cbn in H |- *;
    try discriminate; auto.
  f_equal. apply IH. lia.
Qed.

Section Cmp.

Variable isclose : Z -> Z -> bool.

Lemma compare_field_swap d1 d2 fa :
  (forall x y, isclose x y = isclose y x) ->
  compare_field isclose d1 d2 fa = compare_field isclose d2 d1 fa.
Proof.
  intros Hsym. destruct fa as [k a]. unfold compare_field.
  destruct (lookup_cases d1 k) as [[x Hx]|Hx], (lookup_cases d2 k) as [[y Hy]|Hy];
    rewrite Hx, Hy; cbn [bind]; try reflexivity.
  destruct a; try (f_equal; apply pyval_eqb_sym).
  destruct x, y; try (f_equal; apply pyval_eqb_sym). f_equal. apply Hsym.
Qed.

Lemma comparison_array_swap d1 d2 fs :
  (forall x y, isclose x y = isclose y x) ->
  comparison_array isclose d1 d2 fs = comparison_array isclose d2 d1 fs.
Proof.
  intros Hsym. induction fs as [|fa fs IH]; [reflexivity|].
  cbn [comparison_array]. rewrite compare_field_swap, IH by exact Hsym. reflexivity.
Qed.

Lemma comparison_array_self d fs :
  (forall k a, In (k, a) fs ->
     exists v, lookup d k = Ok v /\ forall x, v = PFloat x -> isclose x x = true) ->
  exists l, comparison_array isclose d d fs = Ok l /\ forallb (fun b => b) l = true.
Proof.
  induction fs as [|[k a] fs IH]; intros H; [exists []; split; reflexivity|].
  destruct (H k a (or_introl eq_refl)) as [v [Hv Hf]].
  destruct IH as [l [Hl Hb]]; [intros k' a' Hin; apply (H k' a'); right; exact Hin|].
  exists (true :: l). split; [|exact Hb].
  cbn [comparison_array]. unfold compare_field. rewrite Hv. cbn [bind]. rewrite Hl.
  destruct a; cbn [bind]; try (rewrite pyval_eqb_refl; reflexivity).
  destruct v; cbn [bind]; try (rewrite pyval_eqb_refl; reflexivity).
  rewrite (Hf _ eq_refl). reflexivity.
Qed.

End Cmp.

Lemma extraction_datetime_cases z :
  (exists dt, extraction_datetime z = Ok dt) \/ extraction_datetime z = Err OverflowError.
Proof.
  unfold extraction_datetime, timedelta_microseconds, datetime_add.
  destruct (_ <=? 999999999 * 86400000000 + 86399999999); cbn [bind]; [|right; reflexivity].
  destruct (_ <=? datetime_max_us); [left; eexists; reflexivity|right; reflexivity].
Qed.

Lemma construct_length k vs r :
  construct k vs = Ok r -> List.length vs = List.length (model_fields k).
Proof.
  unfold construct. destruct (validate_fields (model_fields k) vs) as [vals|e] eqn:H;
    cbn [bind]; [|discriminate]. intros _.
  revert vs vals H. induction (model_fields k) as [|[n a] fs IH]; intros vs vals H.
  - destruct vs; [reflexivity|discriminate].
  - destruct vs as [|v vs]; cbn [validate_fields] in H; [discriminate|].
    destruct (validate_field n a v); cbn [bind] in H; [|discriminate].
    destruct (validate_fields fs vs) as [rest|] eqn:Hr; cbn [bind] in H; [|discriminate].
    cbn. f_equal. exact (IH vs rest Hr).
Qed.

(** [model_dump()] of a constructed record fails only from the derived
    [datetime], with [OverflowError]. *)
Lemma model_dump_cases k vs :
  List.length vs = List.length (model_fields k) ->
  (exists d, model_dump (mkRecord k vs) = Ok d) \/
  model_dump (mkRecord k vs) = Err OverflowError.
Proof.
  intros Hl. destruct k; try (left; eexists; reflexivity).
  - cbn in Hl.
    do 12 (destruct vs as [|? vs]; [discriminate|]).
    destruct vs; [|discriminate].
    unfold model_dump. cbn [rkind rvalues model_fields uint_fields map app fst combine].
    cbn [lookup String.eqb Ascii.eqb Bool.eqb andb bind].
    match goal with
    | |- context [match ?x with PInt _ => _ | _ => _ end] => destruct x
    end; try (left; eexists; reflexivity).
    destruct (extraction_datetime_cases z) as [[dt Hdt]|Hdt]; rewrite Hdt; cbn [bind].
    + left; eexists; reflexivity.
    + right; reflexivity.
  - left. unfold model_dump. cbn [rkind rvalues].
    repeat match goal with
           | |- context [match ?x with _ => _ end] => destruct x
           end; eexists; reflexivity.
Qed.

Lemma record_eq_swap isclose ka va kb vb :
  (forall x y, isclose x y = isclose y x) ->
  List.length va = List.length (model_fields ka) ->
  List.length vb = List.length (model_fields kb) ->
  record_eq isclose (mkRecord ka va) (mkRecord kb vb)
  = record_eq isclose (mkRecord kb vb) (mkRecord ka va).
Proof.
  intros Hsym Ha Hb. unfold record_eq. cbn [rkind].
  destruct (Kind_eqb kb ka) eqn:Hk.
  - assert (ka = kb) as <- by (destruct ka, kb; try discriminate; reflexivity).
    rewrite Hk.
    destruct (model_dump_cases ka va Ha) as [[da Hda]|Hda], (model_dump_cases ka vb Hb) as [[db Hdb]|Hdb];
      rewrite Hda, Hdb; cbn [bind]; try reflexivity.
    rewrite comparison_array_swap by exact Hsym. reflexivity.
  - assert (Hk' : Kind_eqb ka kb = false) by (destruct ka, kb; try discriminate; reflexivity).
    rewrite Hk'. reflexivity.
Qed.

(** The keys of [model_dump()] of a record other than a [QualityRecord]. *)
Lemma model_dump_lookup k vs d :
  k <> QualityRecord ->
  List.length vs = List.length (model_fields k) ->
  model_dump (mkRecord k vs) = Ok d ->
  forall n a, In (n, a) (model_fields k) ->
    exists v, lookup d n = Ok v /\ (In v vs \/ exists dt, v = PDatetime dt).
Proof.
  intros Hq Hl Hd n a Hin.
  set (names := map fst (model_fields k)).
  assert (Hn : In n names) by (apply (in_map fst) in Hin; exact Hin).
  assert (Hc : map fst (combine names vs) = names)
    by (apply map_fst_combine; unfold names; rewrite length_map; lia).
  assert (Hd' : d = combine names vs \/
                exists dt, d = combine names vs ++ [("datetime", PDatetime dt)]).
  { unfold model_dump in Hd. cbn [rkind rvalues] in Hd. fold names in Hd.
    destruct k; try (injection Hd as <-; left; reflexivity); [|contradiction].
    destruct (lookup (combine names vs) "datestamp") as [ds|e]; cbn [bind] in Hd; [|discriminate].
    destruct ds; try (injection Hd as <-; left; reflexivity).
    destruct (extraction_datetime z) as [dt|e]; cbn [bind] in Hd; [|discriminate].
    injection Hd as <-. right; eexists; reflexivity. }
  assert (Hex : In n (map fst d)).
  { destruct Hd' as [->|[dt ->]]; [rewrite Hc; exact Hn|].
    rewrite map_app, Hc. apply in_or_app. left; exact Hn. }
  destruct (lookup_exists d n Hex) as [v Hv].
  exists v. split; [exact Hv|].
  apply lookup_in in Hv.
  destruct Hd' as [->|[dt ->]].
  - left. apply in_combine_r in Hv. exact Hv.
  - apply in_app_or in Hv as [Hv|[Hv|[]]].
    + left. apply in_combine_r in Hv. exact Hv.
    + right. injection Hv as _ <-. eexists; reflexivity.
Qed.

Lemma record_eq_self isclose k vs d :
  k <> QualityRecord ->
  List.length vs = List.length (model_fields k) ->
  model_dump (mkRecord k vs) = Ok d ->
  (forall x, In (PFloat x) vs -> isclose x x = true) ->
  record_eq isclose (mkRecord k vs) (mkRecord k vs) = Ok true.
Proof.
  intros Hq Hl Hd Hf. unfold record_eq. cbn [rkind].
  assert (Hk : Kind_eqb k k = true) by (destruct k; reflexivity).
  rewrite Hk, Hd. cbn [bind].
  destruct (comparison_array_self isclose d (model_fields k)) as [l [Hc Hb]].
  - intros n a Hin.
    destruct (model_dump_lookup k vs d Hq Hl Hd n a Hin) as [v [Hv Hv']].
    exists v. split; [exact Hv|].
    intros x ->. destruct Hv' as [Hv'|[dt Hdt]]; [apply Hf, Hv'|discriminate].
  - rewrite Hc. cbn [bind]. rewrite Hb. reflexivity.
Qed.

End EqProps.

Module Dict.

Lemma dict_get_set_eq {V} (d : list (string * V)) k v : dict_get (dict_set k v d) k = Some v.
Proof.
  induction d as [|[k' v'] d IH]; cbn [dict_set dict_get]; [rewrite String.eqb_refl; reflexivity|].
  destruct (String.eqb_spec k k') as [<-|Hne]; cbn [dict_get].
  - rewrite String.eqb_refl. reflexivity.
  - rewrite (proj2 (String.eqb_neq k k') Hne). exact IH.
Qed.

Lemma dict_get_set_neq {V} (d : list (string * V)) k k' v :
  k' <> k -> dict_get (dict_set k v d) k' = dict_get d k'.
Proof.
  intros Hne. induction d as [|[k0 v0] d IH]; cbn [dict_set dict_get].
  - rewrite (proj2 (String.eqb_neq k' k) Hne). reflexivity.
  - destruct (String.eqb_spec k k0) as [<-|Hk]; cbn [dict_get].
    + rewrite (proj2 (String.eqb_neq k' k) Hne). reflexivity.
    + destruct (String.eqb k' k0); [reflexivity|exact IH].
Qed.

End Dict.

Module Folds.

(** Steps that leave the accumulator alone on the dropped elements. *)
Lemma fold_left_filter {A B} (f : B -> A -> B) (p : A -> bool) l acc :
  (forall a acc, p a = false -> f acc a = acc) ->
  fold_left f (filter p l) acc = fold_left f l acc.
Proof.
  intros Hid. revert acc; induction l as [|a l IH]; intros acc; [reflexivity|].
  cbn [filter fold_left]. destruct (p a) eqn:Hp; cbn [fold_left].
  - apply IH.
  - rewrite (Hid a acc Hp). apply IH.
Qed.

(** Steps that commute give the same result on any reordering. *)
Lemma fold_left_perm {A B} (f : B -> A -> B) l l' acc :
  (forall acc a b, f (f acc a) b = f (f acc b) a) ->
  Permutation l l' -> fold_left f l acc = fold_left f l' acc.
Proof.
  intros Hc Hp. revert acc. induction Hp; intros acc; cbn [fold_left]; auto.
  - rewrite Hc. reflexivity.
  - rewrite IHHp1. apply IHHp2.
Qed.

End Folds.

Module TileProps.

Import LegacyTiles.

Section Sums.

Variable pyfloat : Type.
Variable fadd : pyfloat -> pyfloat -> pyfloat.

Lemma fold_tile_step (records : list (TileMetricRecord pyfloat)) ds dc tc pc :
  fold_left (tile_step fadd) records (ds, dc, tc, pc)
  = (fold_left fadd (map metric_value (filter (fun r => metric_code r =? 100) records)) ds,
     dc + Z.of_nat (List.length (filter (fun r => metric_code r =? 100) records)),
     fold_left fadd (map metric_value (filter (fun r => metric_code r =? 102) records)) tc,
     fold_left fadd (map metric_value (filter (fun r => metric_code r =? 103) records)) pc).
Proof.
  revert ds dc tc pc. induction records as [|r records IH]; intros ds dc tc pc.
  - cbn. rewrite Z.add_0_r. reflexivity.
  - cbn [fold_left filter]. unfold tile_step at 2.
    unfold CLUSTER_DENSITY, CLUSTER_COUNT, CLUSTER_COUNT_PASSING_FILTERS.
    destruct (Z.eqb_spec (metric_code r) 100) as [H0|H0];
      [|destruct (Z.eqb_spec (metric_code r) 102) as [H2|H2];
        [|destruct (Z.eqb_spec (metric_code r) 103) as [H3|H3]]];
      rewrite ?H0, ?H2, ?H3; cbn [Z.eqb Pos.eqb map fold_left List.length];
      rewrite IH; rewrite ?Nat2Z.inj_succ;
      match goal with
      | |- (?a, ?b, ?c, ?d) = (?a', ?b', ?c', ?d') =>
          assert (Hb : b = b') by lia; try rewrite Hb; reflexivity
      end.
Qed.

End Sums.

End TileProps.

Module QualityProps.

Import LegacyQuality.

Lemma list_sum_cons a l : list_sum (a :: l) = a + list_sum l.
Proof.
  unfold list_sum. cbn [fold_left].
  assert (H : forall l acc, fold_left Z.add l acc = acc + fold_left Z.add l 0).
  { induction l0 as [|b l0 IH]; intros acc; cbn [fold_left]; [lia|].
    rewrite IH, (IH (0 + b)). lia. }
  rewrite H. lia.
Qed.

Lemma list_sum_nonneg l : Forall (fun z => 0 <= z) l -> 0 <= list_sum l.
Proof.
  induction 1; [reflexivity|]. rewrite list_sum_cons. lia.
Qed.

Lemma list_sum_skipn n l :
  Forall (fun z => 0 <= z) l -> 0 <= list_sum (skipn n l) <= list_sum l.
Proof.
  revert l; induction n as [|n IH]; intros l Hl.
  - cbn [skipn]. split; [apply list_sum_nonneg, Hl|lia].
  - destruct l as [|a l]; [cbn; lia|].
    inversion Hl as [|? ? Ha Hl']; subst.
    cbn [skipn]. rewrite list_sum_cons. specialize (IH l Hl'). lia.
Qed.

Ltac tuple4 :=
  match goal with
  | |- (?a, ?b, ?c, ?d) = (?a', ?b', ?c', ?d') =>
      assert (a = a') by lia; assert (b = b') by lia;
      assert (c = c') by lia; assert (d = d') by lia; congruence
  end.

Lemma quality_step_comm b acc r1 r2 :
  quality_step b (quality_step b acc r1) r2 = quality_step b (quality_step b acc r2) r1.
Proof.
  destruct acc as [[[g t] gr] tr]. destruct b as [[l f]|].
  - unfold quality_step.
    destruct (cycle r1 <=? l), (cycle r2 <=? l);
      destruct (f <=? cycle r1), (f <=? cycle r2); tuple4.
  - unfold quality_step. tuple4.
Qed.

(** The totals stay ordered: good clusters never exceed all clusters. *)
Lemma quality_totals_bounds b records g t gr tr :
  Forall (fun r => Forall (fun z => 0 <= z) (quality_bins r)) records ->
  0 <= g <= t -> 0 <= gr <= tr ->
  let '(g', t', gr', tr') := fold_left (quality_step b) records (g, t, gr, tr) in
  0 <= g' <= t' /\ 0 <= gr' <= tr'.
Proof.
  intros Hr. revert g t gr tr. induction Hr as [|r records Hr0 Hr IH]; intros g t gr tr Hg Hgr.
  - cbn. lia.
  - cbn [fold_left].
    pose proof (list_sum_skipn 29 (quality_bins r) Hr0) as Hs.
    unfold quality_step at 2.
    destruct b as [[l f]|]; [destruct (cycle r <=? l); [|destruct (f <=? cycle r)]|];
      apply IH; lia.
Qed.

(** The accumulated totals when [read_lengths] is [None]. *)
Lemma fold_quality_none records g t gr tr :
  fold_left (quality_step None) records (g, t, gr, tr)
  = (g + list_sum (map (fun r => list_sum (skipn 29 (quality_bins r))) records),
     t + list_sum (map (fun r => list_sum (quality_bins r)) records), gr, tr).
Proof.
  revert g t. induction records as [|r records IH]; intros g t.
  - cbn. tuple4.
  - cbn [fold_left map].
    change (quality_step None (g, t, gr, tr) r)
      with (g + list_sum (skipn 29 (quality_bins r)), t + list_sum (quality_bins r), gr, tr).
    rewrite IH, !list_sum_cons. tuple4.
Qed.

End QualityProps.

Module LegacyEq.

Lemma legacy_qkey_not_quality_bins n : String.eqb "quality_bins" (LegacyModels.qkey n) = false.
Proof.
  destruct (String.eqb_spec "quality_bins" (LegacyModels.qkey n)) as [H|H]; [|reflexivity].
  apply (f_equal String.length) in H. unfold LegacyModels.qkey, digit in H.
  simpl in H. discriminate.
Qed.

Lemma legacy_lookup_enumerate_quality_bins n l :
  lookup (LegacyModels.enumerate_from n l) "quality_bins" = Err (KeyError "quality_bins").
Proof.
  revert n; induction l as [|v l IH]; intros n; [reflexivity|].
  cbn [LegacyModels.enumerate_from lookup]. rewrite legacy_qkey_not_quality_bins. apply IH.
Qed.

End LegacyEq.

Module Validate.

Lemma validate_fields_err fs vs e :
  validate_fields fs vs = Err e -> exists m, e = ValidationError m.
Proof.
  revert vs; induction fs as [|[n a] fs IH]; intros vs H.
  - destruct vs; cbn in H; [discriminate|injection H as <-; eexists; reflexivity].
  - destruct vs as [|v vs]; cbn [validate_fields] in H; [injection H as <-; eexists; reflexivity|].
    destruct (validate_field n a v) as [v'|e'] eqn:Hv; cbn [bind] in H.
    + destruct (validate_fields fs vs) as [rest|e''] eqn:Hr; cbn [bind] in H; [discriminate|].
      injection H as <-. exact (IH vs Hr).
    + injection H as <-. unfold validate_field in Hv.
      destruct a, v; try (injection Hv as <-; eexists; reflexivity);
        repeat match goal with
               | H : (if ?c then _ else _) = _ |- _ => destruct c
               end; try discriminate; injection Hv as <-; eexists; reflexivity.
Qed.

Lemma validate_fields_uint fs vs vals :
  validate_fields fs vs = Ok vals ->
  forall i n z, nth_error fs i = Some (n, Uint) -> nth_error vs i = Some (PInt z) -> 0 <= z.
Proof.
  revert vs vals; induction fs as [|[n a] fs IH]; intros vs vals H i n' z Hi Hv.
  - destruct i; discriminate.
  - destruct vs as [|v vs]; [destruct i; discriminate|].
    cbn [validate_fields] in H.
    destruct (validate_field n a v) as [v'|e] eqn:Hf; cbn [bind] in H; [|discriminate].
    destruct (validate_fields fs vs) as [rest|e] eqn:Hr; cbn [bind] in H; [|discriminate].
    destruct i as [|i]; cbn in Hi, Hv.
    + injection Hi as -> ->. injection Hv as ->. cbn in Hf.
      destruct (Z.leb_spec 0 z); [assumption|discriminate].
    + exact (IH vs rest Hr i n' z Hi Hv).
Qed.

End Validate.

(** * Further properties of the code *)

(** ** Generated files decode to their rows *)



(** ** Files too short for a record *)

(** A file shorter than the two header bytes makes the first [next] of
    every reader raise [struct.error]; a file holding only an accepted
    header yields no record and stops cleanly. *)
Theorem reader_header_only_or_short rd c v rl fuel :
  ((List.length c < 2)%nat ->
     run (next_fmt rd) (S fuel) FStart (mkFile c 0) = ([], Raised StructError)) /\
  (min_version (rformat rd) <= byte_val v ->
     run (next_fmt rd) (S fuel) FStart (mkFile [v; rl] 0) = ([], Finished)).
Proof.
  split.
  - intros Hc. destruct c as [|b [|b' c]]; [reflexivity|reflexivity|cbn in Hc; lia].
  - intros Hv. cbn [run next_fmt]. unfold fmt_iter.
    rewrite Header.next_rr_start.
    destruct (Z.ltb_spec (byte_val v) (min_version (rformat rd))); [lia|].
    unfold rr_loop, read. cbn [contents pos skipn]. rewrite firstn_nil. reflexivity.
Qed.

(** ** Record validation *)


(** ** [BaseMetricRecord.__eq__] *)

(** For records built by their constructors, [a == b] and [b == a] give
    the same result (the same boolean, or the same exception) whenever the
    float closeness test is symmetric, as [math.isclose] is. *)
Theorem record_eq_symmetric (isclose : Z -> Z -> bool) ka va kb vb a b :
  (forall x y, isclose x y = isclose y x) ->
  construct ka va = Ok a -> construct kb vb = Ok b ->
  record_eq isclose a b = record_eq isclose b a.
Proof.
  intros Hsym Ha Hb.
  pose proof (EqProps.construct_length _ _ _ Ha) as Hla.
  pose proof (EqProps.construct_length _ _ _ Hb) as Hlb.
  rewrite (Encode.construct_values _ _ _ Ha), (Encode.construct_values _ _ _ Hb).
  apply EqProps.record_eq_swap; assumption.
Qed.

(** A record built by its constructor, other than a [QualityRecord],
    compares equal to itself whenever its [model_dump()] succeeds and each
    of its float values is close to itself. *)
Theorem record_eq_reflexive (isclose : Z -> Z -> bool) k vs r d :
  construct k vs = Ok r ->
  k <> QualityRecord ->
  model_dump r = Ok d ->
  (forall x, In (PFloat x) vs -> isclose x x = true) ->
  record_eq isclose r r = Ok true.
Proof.
  intros Hc Hq Hd Hf.
  pose proof (EqProps.construct_length _ _ _ Hc) as Hl.
  rewrite (Encode.construct_values _ _ _ Hc) in Hd |- *.
  exact (EqProps.record_eq_self isclose k vs d Hq Hl Hd Hf).
Qed.

(** ** The legacy [interop_reader] package *)

(** [summarize_tile_records] sets ["cluster_density"] to the sum of the
    values of the code-100 records divided by their number when there is
    at least one, and ["pass_rate"] to the sum of the code-103 values over
    the sum of the code-102 values when the latter is positive (sums taken
    in record order from [0.0]); otherwise, and for every other key, the
    summary keeps what it held. *)
Theorem legacy_summarize_tile_records (pyfloat : Type) (fzero : pyfloat)
  (fadd : pyfloat -> pyfloat -> pyfloat) (fgt0 : pyfloat -> bool)
  (float_of_int : Z -> pyfloat) (fdiv : pyfloat -> pyfloat -> pyfloat)
  (records : list (LegacyTiles.TileMetricRecord pyfloat)) (summary : list (string * pyfloat)) :
  let result :=
    LegacyTiles.summarize_tile_records fzero fadd fgt0 float_of_int fdiv records summary in
  let values c :=
    map LegacyTiles.metric_value (filter (fun r => LegacyTiles.metric_code r =? c) records) in
  let total c := fold_left fadd (values c) fzero in
  dict_get result "cluster_density"
  = (if 0 <? Z.of_nat (List.length (values 100))
     then Some (fdiv (total 100) (float_of_int (Z.of_nat (List.length (values 100)))))
     else dict_get summary "cluster_density") /\
  dict_get result "pass_rate"
  = (if fgt0 (total 102) then Some (fdiv (total 103) (total 102))
     else dict_get summary "pass_rate") /\
  (forall k, k <> "cluster_density" -> k <> "pass_rate" -> dict_get result k = dict_get summary k).
Proof.
  intros result values total. subst result values total.
  unfold LegacyTiles.summarize_tile_records.
  rewrite TileProps.fold_tile_step. cbv beta iota zeta.
  rewrite !Z.add_0_l, !length_map.
  set (n := Z.of_nat _).
  split; [|split].
  - destruct (fgt0 _); [rewrite Dict.dict_get_set_neq by discriminate|];
      (destruct (0 <? n); [apply Dict.dict_get_set_eq|reflexivity]).
  - destruct (fgt0 _); [apply Dict.dict_get_set_eq|].
    destruct (0 <? n); [apply Dict.dict_get_set_neq; discriminate|reflexivity].
  - intros k Hk1 Hk2.
    destruct (fgt0 _); [rewrite Dict.dict_get_set_neq by exact Hk2|];
      (destruct (0 <? n); [apply Dict.dict_get_set_neq; exact Hk1|reflexivity]).
Qed.

(** Without [read_lengths], [summarize_quality_records] counts every
    record as a forward cycle: it sets ["q30_fwd"] to the number of
    clusters in bins 30 and up over all clusters when there is at least one
    cluster, and never touches ["q30_rev"]; with an empty [read_lengths] it
    raises [IndexError]. *)
Theorem legacy_summarize_quality_without_read_lengths (pyfloat : Type)
  (float_of_int : Z -> pyfloat) (fdiv : pyfloat -> pyfloat -> pyfloat)
  (records : list LegacyQuality.quality_record) (summary : list (string * pyfloat)) :
  LegacyQuality.summarize_quality_records float_of_int fdiv records summary None
  = Some (let total := LegacyQuality.list_sum
                         (map (fun r => LegacyQuality.list_sum (LegacyQuality.quality_bins r)) records) in
          let good := LegacyQuality.list_sum
                        (map (fun r => LegacyQuality.list_sum (skipn 29 (LegacyQuality.quality_bins r)))
                             records) in
          if 0 <? total
          then dict_set "q30_fwd" (fdiv (float_of_int good) (float_of_int total)) summary
          else summary) /\
  LegacyQuality.summarize_quality_records float_of_int fdiv records summary (Some []) = None.
Proof.
  split; [|reflexivity].
  unfold LegacyQuality.summarize_quality_records. cbn [option_map].
  rewrite QualityProps.fold_quality_none. cbv beta iota zeta.
  rewrite !Z.add_0_l. reflexivity.
Qed.

(** The summary [summarize_quality_records] computes does not depend on
    the order of the records. *)
Theorem legacy_summarize_quality_order_independent (pyfloat : Type)
  (float_of_int : Z -> pyfloat) (fdiv : pyfloat -> pyfloat -> pyfloat)
  records records' (summary : list (string * pyfloat)) read_lengths :
  Permutation records records' ->
  LegacyQuality.summarize_quality_records float_of_int fdiv records summary read_lengths
  = LegacyQuality.summarize_quality_records float_of_int fdiv records' summary read_lengths.
Proof.
  intros Hp. unfold LegacyQuality.summarize_quality_records.
  destruct read_lengths as [[|x l]|]; [reflexivity| |];
    rewrite (Folds.fold_left_perm _ records records' _ (QualityProps.quality_step_comm _) Hp);
    reflexivity.
Qed.

(** With a non-empty [read_lengths], the records whose cycle lies
    strictly between the last forward cycle [read_lengths[0]] and the first
    reverse cycle [sum(read_lengths[:-1]) + 1] (the index reads) play no
    part: dropping them leaves the summary unchanged. *)
Theorem legacy_summarize_quality_index_cycles_ignored (pyfloat : Type)
  (float_of_int : Z -> pyfloat) (fdiv : pyfloat -> pyfloat -> pyfloat)
  records (summary : list (string * pyfloat)) read_lengths :
  read_lengths <> [] ->
  let last_forward_cycle := hd 0 read_lengths in
  let first_reverse_cycle := LegacyQuality.list_sum (removelast read_lengths) + 1 in
  LegacyQuality.summarize_quality_records float_of_int fdiv
    (filter (fun r => (LegacyQuality.cycle r <=? last_forward_cycle)
                      || (first_reverse_cycle <=? LegacyQuality.cycle r)) records)
    summary (Some read_lengths)
  = LegacyQuality.summarize_quality_records float_of_int fdiv records summary (Some read_lengths).
Proof.
  intros Hne lf fr. subst lf fr.
  destruct read_lengths as [|x l]; [contradiction|].
  unfold LegacyQuality.summarize_quality_records. cbn [option_map].
  rewrite Folds.fold_left_filter; [reflexivity|].
  intros r [[[g t] gr] tr] Hp. apply orb_false_iff in Hp as [H1 H2].
  unfold LegacyQuality.quality_step, LegacyQuality.cycle_bounds.
  rewrite H1, H2. reflexivity.
Qed.

(** The last entry of [read_lengths] is never used: two lists of at least
    two entries that differ only there give the same summary. *)
Theorem legacy_summarize_quality_last_length_unused (pyfloat : Type)
  (float_of_int : Z -> pyfloat) (fdiv : pyfloat -> pyfloat -> pyfloat)
  records (summary : list (string * pyfloat)) l x y :
  l <> [] ->
  LegacyQuality.summarize_quality_records float_of_int fdiv records summary (Some (l ++ [x]))
  = LegacyQuality.summarize_quality_records float_of_int fdiv records summary (Some (l ++ [y])).
Proof.
  intros Hne. destruct l as [|a l]; [contradiction|].
  assert (Hb : LegacyQuality.cycle_bounds ((a :: l) ++ [x])
               = LegacyQuality.cycle_bounds ((a :: l) ++ [y])).
  { unfold LegacyQuality.cycle_bounds. rewrite !removelast_last. reflexivity. }
  unfold LegacyQuality.summarize_quality_records.
  change (a :: l ++ [x]) with ((a :: l) ++ [x]).
  change (a :: l ++ [y]) with ((a :: l) ++ [y]).
  cbn [option_map]. rewrite Hb. reflexivity.
Qed.


(** In the legacy models too, comparing two [QualityRecord]s raises
    [KeyError('quality_bins')], whatever their fields: the custom
    serializer there flattens the bins into keys ["00"] to ["49"]. *)
Theorem legacy_quality_record_eq_raises (isclose : Z -> Z -> bool)
  (fromtimestamp : Z -> result Z) p1 p2 p3 bins q1 q2 q3 bins' :
  LegacyModels.record_eq isclose fromtimestamp
    (mkRecord QualityRecord [p1; p2; p3; PList bins])
    (mkRecord QualityRecord [q1; q2; q3; PList bins'])
  = Err (KeyError "quality_bins").
Proof.
  unfold LegacyModels.record_eq. cbn [rkind Kind_eqb]. unfold LegacyModels.model_dump.
  cbn [rkind rvalues].
  cbn [bind model_fields uint_fields map app comparison_array compare_field].
  cbn [lookup String.eqb Ascii.eqb Bool.eqb andb bind].
  rewrite LegacyEq.legacy_lookup_enumerate_quality_bins. reflexivity.
Qed.

(** ** Witnesses of the further properties *)

Definition tile_rows : list (list pyval) :=
  [[PInt 1; PInt 1101; PInt 100; PFloat 1065353216];
   [PInt 1; PInt 1101; PInt 102; PFloat 1073741824]].

Definition image_rows : list (list pyval) :=
  [[PInt 1; PInt 2; PInt 3; PInt 4; PInt 5; PInt 6]].

Definition packed (fmt : BinaryFormat) (rows : list (list pyval)) : list bytes :=
  match generate_binary fmt rows with Ok bss => bss | Err _ => [] end.



Lemma reader_header_only_or_short_witness :
  run (next_fmt read_tiles_reader) 1 FStart (mkFile [Byte.x02] 0) = ([], Raised StructError) /\
  run (next_fmt read_tiles_reader) 1 FStart (mkFile [Byte.x02; Byte.x0a] 0) = ([], Finished).
Proof.
  split.
  - apply (proj1 (reader_header_only_or_short read_tiles_reader [Byte.x02] Byte.x02 Byte.x0a 0%nat)).
    simpl; lia.
  - apply (proj2 (reader_header_only_or_short read_tiles_reader [] Byte.x02 Byte.x0a 0%nat)).
    vm_compute; intro; discriminate.
Defined.


Definition tile_a : record := mkRecord TileMetricRecord [PInt 1; PInt 2; PInt 100; PFloat 5].
Definition tile_b : record := mkRecord TileMetricRecord [PInt 1; PInt 2; PInt 100; PFloat 6].

Lemma record_eq_symmetric_witness :
  record_eq Z.eqb tile_a tile_b = record_eq Z.eqb tile_b tile_a.
Proof.
  apply (record_eq_symmetric Z.eqb TileMetricRecord [PInt 1; PInt 2; PInt 100; PFloat 5]
           TileMetricRecord [PInt 1; PInt 2; PInt 100; PFloat 6]).
  - exact Z.eqb_sym.
  - vm_compute; reflexivity.
  - vm_compute; reflexivity.
Defined.

Lemma record_eq_reflexive_witness : record_eq Z.eqb tile_a tile_a = Ok true.
Proof.
  apply (record_eq_reflexive Z.eqb TileMetricRecord [PInt 1; PInt 2; PInt 100; PFloat 5] tile_a
           (match model_dump tile_a with Ok d => d | Err _ => [] end)).
  - vm_compute; reflexivity.
  - discriminate.
  - vm_compute; reflexivity.
  - intros x _. apply Z.eqb_refl.
Defined.

Definition legacy_tiles : list (LegacyTiles.TileMetricRecord Q) :=
  [LegacyTiles.mkTileMetricRecord 1 1101 100 5%Q; LegacyTiles.mkTileMetricRecord 1 1101 102 10%Q;
   LegacyTiles.mkTileMetricRecord 1 1101 103 8%Q; LegacyTiles.mkTileMetricRecord 1 1101 200 7%Q].

Lemma legacy_summarize_tile_records_witness :
  dict_get (LegacyTiles.summarize_tile_records 0%Q Qplus (fun q => negb (Qle_bool q 0))
              inject_Z Qdiv legacy_tiles [("other", 1%Q)]) "other" = Some 1%Q.
Proof.
  apply (proj2 (proj2 (legacy_summarize_tile_records Q 0%Q Qplus (fun q => negb (Qle_bool q 0))
                          inject_Z Qdiv legacy_tiles [("other", 1%Q)]))).
  - discriminate.
  - discriminate.
Defined.

Definition legacy_quality : list LegacyQuality.quality_record :=
  [LegacyQuality.mkQualityRecord 1 (repeat 2 40); LegacyQuality.mkQualityRecord 5 (repeat 3 40);
   LegacyQuality.mkQualityRecord 9 (repeat 1 40)].

Lemma legacy_summarize_quality_order_independent_witness :
  LegacyQuality.summarize_quality_records inject_Z Qdiv legacy_quality [] (Some [3; 2; 5])
  = LegacyQuality.summarize_quality_records inject_Z Qdiv (rev legacy_quality) [] (Some [3; 2; 5]).
Proof.
  apply (legacy_summarize_quality_order_independent Q inject_Z Qdiv).
  apply Permutation_rev.
Defined.

Lemma legacy_summarize_quality_index_cycles_ignored_witness :
  LegacyQuality.summarize_quality_records inject_Z Qdiv
    (filter (fun r => (LegacyQuality.cycle r <=? 3) || (6 <=? LegacyQuality.cycle r)) legacy_quality)
    [] (Some [3; 2; 5])
  = LegacyQuality.summarize_quality_records inject_Z Qdiv legacy_quality [] (Some [3; 2; 5]).
Proof.
  exact (legacy_summarize_quality_index_cycles_ignored Q inject_Z Qdiv legacy_quality []
           [3; 2; 5] ltac:(discriminate)).
Defined.

Lemma legacy_summarize_quality_last_length_unused_witness :
  LegacyQuality.summarize_quality_records inject_Z Qdiv legacy_quality [] (Some ([3; 2] ++ [5]))
  = LegacyQuality.summarize_quality_records inject_Z Qdiv legacy_quality [] (Some ([3; 2] ++ [9])).
Proof.
  apply (legacy_summarize_quality_last_length_unused Q inject_Z Qdiv legacy_quality [] [3; 2] 5 9).
  discriminate.
Defined.

